(** * Rehabilitation risk agent: a shallow embedding of [src/_init_.py]

    The development follows the Python source: the threshold record
    [RiskConfig], the agent [RehabRiskAgent] with its file locator and table
    cleaner [_load_and_clean], the three metric blocks of [analyze] and the
    verdict [get_result].

    Numbers.  The program computes on IEEE doubles through numpy and pandas.
    The model keeps the three kinds of value that the program's control flow
    distinguishes, not-a-number, the two infinities and finite values, and
    computes on finite values with exact rationals kept in lowest terms.
    Rounding to 53 bits, overflow and the sign of zero are outside the
    model.  The square root, the one irrational operation, is rounded down
    to a multiple of [2^-53 / den]; it is exact on squares of rationals. *)

From Stdlib Require Import ZArith QArith Qabs Qround Lia Lqa Bool List.
From Stdlib Require Import Ascii String Numbers.DecimalString.
Import ListNotations.

Open Scope Q_scope.

(** ** Double-precision values *)

Module Float.

Inductive float : Type :=
| NaN
| Inf (negative : bool)
| Fin (q : Q).

Definition of_Z (z : Z) : float := Fin (z # 1).
Definition of_nat (n : nat) : float := of_Z (Z.of_nat n).

Definition is_nan (x : float) : bool :=
  match x with NaN => true | _ => false end.

Definition Qneg (q : Q) : bool :=
  match Qcompare q 0 with Lt => true | _ => false end.

Definition Qzero (q : Q) : bool :=
  match Qcompare q 0 with Eq => true | _ => false end.

Definition neg (x : float) : float :=
  match x with
  | NaN => NaN
  | Inf s => Inf (negb s)
  | Fin q => Fin (Qred (- q))
  end.

Definition add (x y : float) : float :=
  match x, y with
  | NaN, _ | _, NaN => NaN
  | Inf s, Inf t => if Bool.eqb s t then Inf s else NaN
  | Inf s, Fin _ | Fin _, Inf s => Inf s
  | Fin a, Fin b => Fin (Qred (a + b))
  end.

Definition sub (x y : float) : float := add x (neg y).

Definition mul (x y : float) : float :=
  match x, y with
  | NaN, _ | _, NaN => NaN
  | Inf s, Inf t => Inf (xorb s t)
  | Inf s, Fin q | Fin q, Inf s =>
      if Qzero q then NaN else Inf (xorb s (Qneg q))
  | Fin a, Fin b => Fin (Qred (a * b))
  end.

(** numpy scalars divide as IEEE does: [0/0] is NaN and [x/0] an infinity,
    with a [RuntimeWarning] and no exception. *)
Definition div (x y : float) : float :=
  match x, y with
  | NaN, _ | _, NaN => NaN
  | Inf _, Inf _ => NaN
  | Inf s, Fin q => Inf (xorb s (Qneg q))
  | Fin _, Inf _ => Fin 0
  | Fin a, Fin b =>
      if Qzero b then (if Qzero a then NaN else Inf (Qneg a))
      else Fin (Qred (a / b))
  end.

Definition abs (x : float) : float :=
  match x with
  | NaN => NaN
  | Inf _ => Inf false
  | Fin q => Fin (Qred (Qabs q))
  end.

Definition sqrt_precision : Z := 53.

Definition Qsqrt (q : Q) : Q :=
  let d := Zpos (Qden q) in
  Qred (Qmake (Z.sqrt (Qnum q * d * 2 ^ (2 * sqrt_precision)))
              (Qden q * Z.to_pos (2 ^ sqrt_precision))).

Definition sqrt (x : float) : float :=
  match x with
  | NaN => NaN
  | Inf s => if s then NaN else Inf false
  | Fin q => if Qneg q then NaN else Fin (Qsqrt q)
  end.

(** [x < y]; every comparison with NaN is false. *)
Definition ltb (x y : float) : bool :=
  match x, y with
  | NaN, _ | _, NaN => false
  | Inf s, Inf t => s && negb t
  | Inf s, Fin _ => s
  | Fin _, Inf t => negb t
  | Fin a, Fin b => match Qcompare a b with Lt => true | _ => false end
  end.

Definition gtb (x y : float) : bool := ltb y x.

(** [x <= y] *)
Definition leb (x y : float) : bool :=
  match x, y with
  | NaN, _ | _, NaN => false
  | Inf s, Inf t => s || negb t
  | Inf s, Fin _ => s
  | Fin _, Inf t => negb t
  | Fin a, Fin b => match Qcompare a b with Gt => false | _ => true end
  end.

End Float.

Import Float.

(** ** Text: number formatting and parsing *)

Open Scope string_scope.

Definition digits_of_Z (n : Z) : string :=
  NilZero.string_of_uint (N.to_uint (Z.to_N n)).

(** Rounding of a non-negative rational to the nearest integer, ties to
    even, as Python's format specifications round. *)
Definition round_half_even (q : Q) : Z :=
  let f := Qfloor q in
  match Qcompare (q - inject_Z f) (1 # 2) with
  | Lt => f
  | Gt => (f + 1)%Z
  | Eq => if Z.even f then f else (f + 1)%Z
  end.

Fixpoint zfill (width : nat) (s : string) : string :=
  match Nat.sub width (String.length s) with
  | O => s
  | S _ =>
      match width with
      | O => s
      | S w => "0" ++ zfill w s
      end
  end.

(** [format(x, ".<prec>f")] *)
Definition format_f (prec : nat) (x : float) : string :=
  match x with
  | NaN => "nan"
  | Inf s => if s then "-inf" else "inf"
  | Fin q =>
      let scale := (10 ^ Z.of_nat prec)%Z in
      let scaled := round_half_even (Qabs q * inject_Z scale) in
      let sign := if Float.Qneg q then "-" else "" in
      let int_part := digits_of_Z (scaled / scale) in
      match prec with
      | O => sign ++ int_part
      | _ => sign ++ int_part ++ "." ++ zfill prec (digits_of_Z (scaled mod scale))
      end
  end.

(** [format(x, ".<prec>%")] *)
Definition format_pct (prec : nat) (x : float) : string :=
  format_f prec (Float.mul x (of_Z 100)) ++ "%".

Definition digit_of (c : ascii) : option Z :=
  let n := nat_of_ascii c in
  if (48 <=? n)%nat && (n <=? 57)%nat then Some (Z.of_nat (n - 48)) else None.

Fixpoint parse_unsigned (s : string) (num : Z) (den : positive)
    (frac seen : bool) : float :=
  match s with
  | EmptyString => if seen then Fin (Qred (num # den)) else NaN
  | String c s' =>
      if Ascii.eqb c "." then
        if frac then NaN else parse_unsigned s' num den true seen
      else
        match digit_of c with
        | Some d =>
            parse_unsigned s' (10 * num + d)%Z
              (if frac then (10 * den)%positive else den) frac true
        | None => NaN
        end
  end.

(** The text of a cell read as a number: an optional sign, digits and at
    most one decimal point.  Any other text is not a number. *)
Definition parse_float (s : string) : float :=
  match s with
  | String "-" s' => Float.neg (parse_unsigned s' 0 1 false false)
  | String "+" s' => parse_unsigned s' 0 1 false false
  | _ => parse_unsigned s 0 1 false false
  end.

(** ** Exceptions *)

Inductive exn : Type :=
| IndexError
| TypeError
| ParserError
| EmptyDataError.

Inductive result (A : Type) : Type :=
| Ok (a : A)
| Raise (e : exn).

Arguments Ok {A} a.
Arguments Raise {A} e.

Definition bind {A B : Type} (r : result A) (k : A -> result B) : result B :=
  match r with
  | Ok a => k a
  | Raise e => Raise e
  end.

Notation "x <- r ;; k" := (bind r (fun x => k))
  (at level 61, r at next level, right associativity).

Fixpoint mapM {A B : Type} (f : A -> result B) (l : list A) : result (list B) :=
  match l with
  | [] => Ok []
  | a :: l' => b <- f a ;; bs <- mapM f l' ;; Ok (b :: bs)
  end.

(** [try: ... except Exception: return None] *)
Definition try_or_None {A : Type} (r : result (option A)) : option A :=
  match r with
  | Ok o => o
  | Raise _ => None
  end.

(** ** Tables (the part of pandas the program uses) *)

(** A cell after [read_csv]'s type inference: a number (a missing value is
    NaN) or text. *)
Inductive cell : Type :=
| Num (x : float)
| Str (s : string).

(** A frame keeps its number of columns, [shape[1]], also when it has no
    row.  A row shorter than that reads as padded with missing values. *)
Record DataFrame : Type := {
  shape1 : nat;
  rows : list (list cell)
}.

Definition Series : Type := list cell.

Definition len (df : DataFrame) : nat := List.length (rows df).

(** [pd.read_csv(path, header=None)] on the lines of a file: the first line
    fixes the number of columns, a longer line is a parse error, a shorter
    one is padded. *)
Definition pad_row (width : nat) (r : list cell) : list cell :=
  r ++ repeat (Num NaN) (width - List.length r).

Definition read_csv (lines : list (list cell)) : result DataFrame :=
  match lines with
  | [] => Raise EmptyDataError
  | first :: _ =>
      let width := List.length first in
      if forallb (fun r => (List.length r <=? width)%nat) lines
      then Ok {| shape1 := width; rows := map (pad_row width) lines |}
      else Raise ParserError
  end.

(** [df.iloc[:, i]] *)
Definition iloc (df : DataFrame) (i : nat) : result Series :=
  if (shape1 df <=? i)%nat then Raise IndexError
  else Ok (map (fun r => nth i r (Num NaN)) (rows df)).

Fixpoint set_nth (i : nat) (c : cell) (r : list cell) : list cell :=
  match r, i with
  | [], _ => []
  | _ :: r', O => c :: r'
  | c' :: r', S i' => c' :: set_nth i' c r'
  end.

Fixpoint set_column (i : nat) (rs : list (list cell)) (s : Series)
    : list (list cell) :=
  match rs, s with
  | r :: rs', c :: s' => set_nth i c r :: set_column i rs' s'
  | _, _ => rs
  end.

(** [df.iloc[:, i] = s] *)
Definition iloc_set (df : DataFrame) (i : nat) (s : Series) : result DataFrame :=
  if (shape1 df <=? i)%nat then Raise IndexError
  else Ok {| shape1 := shape1 df; rows := set_column i (rows df) s |}.

(** [pd.to_numeric(s, errors='coerce')] *)
Definition to_numeric_cell (c : cell) : float :=
  match c with
  | Num x => x
  | Str s => parse_float s
  end.

Definition to_numeric (s : Series) : Series :=
  map (fun c => Num (to_numeric_cell c)) s.

(** An arithmetic or ordering operation on a text cell raises. *)
Definition value (c : cell) : result float :=
  match c with
  | Num x => Ok x
  | Str _ => Raise TypeError
  end.

Definition values (s : Series) : result (list float) := mapM value s.

(** [s > x] and [s < x] *)
Definition series_gt (s : Series) (x : float) : result (list bool) :=
  vs <- values s ;; Ok (map (fun v => Float.gtb v x) vs).

Definition series_lt (s : Series) (x : float) : result (list bool) :=
  vs <- values s ;; Ok (map (fun v => Float.ltb v x) vs).

(** [s.abs()] *)
Definition series_abs (s : Series) : result Series :=
  vs <- values s ;; Ok (map (fun v => Num (Float.abs v)) vs).

(** [mask.sum()] *)
Definition mask_sum (mask : list bool) : nat :=
  List.length (filter (fun b => b) mask).

Fixpoint select {A : Type} (l : list A) (mask : list bool) : list A :=
  match l, mask with
  | a :: l', b :: mask' => if b then a :: select l' mask' else select l' mask'
  | _, _ => []
  end.

(** [df[mask]] *)
Definition getitem_mask (df : DataFrame) (mask : list bool) : DataFrame :=
  {| shape1 := shape1 df; rows := select (rows df) mask |}.

Definition fsum (l : list float) : float :=
  fold_left Float.add l (of_Z 0).

Definition notna (l : list float) : list float :=
  filter (fun v => negb (Float.is_nan v)) l.

(** pandas' [nanmean]: missing values are skipped; no value left gives
    NaN, as [0/0]. *)
Definition nanmean (vs : list float) : float :=
  let xs := notna vs in
  Float.div (fsum xs) (of_nat (List.length xs)).

(** pandas' [nanstd] with [ddof=1]: missing values are skipped, fewer than
    two values left give NaN, else the mean is taken first and the squared
    deviations from it are summed and divided by [count - 1]. *)
Definition nanstd (vs : list float) : float :=
  let xs := notna vs in
  let count := List.length xs in
  if (count <=? 1)%nat then NaN
  else
    let avg := Float.div (fsum xs) (of_nat count) in
    let sqr := map (fun v => let d := Float.sub avg v in Float.mul d d) xs in
    Float.sqrt (Float.div (fsum sqr) (of_nat (count - 1))).

(** [s.mean()] and [s.std()] *)
Definition series_mean (s : Series) : result float :=
  vs <- values s ;; Ok (nanmean vs).

Definition series_std (s : Series) : result float :=
  vs <- values s ;; Ok (nanstd vs).

(** Python's [max(a, b)]: the first argument unless the second is greater. *)
Definition py_max (a b : float) : float :=
  if Float.gtb b a then b else a.

(** ** Files and [glob] *)

Record file : Type := {
  name : string;
  st_mtime : Q;
  lines : list (list cell)
}.

(** A directory: its own name and its entries in listing order. *)
Record Path : Type := {
  dir_name : string;
  listing : list file
}.

(** Shell patterns as [fnmatch] reads them.  Bracket expressions are not
    modelled: ["["] is read as a literal character, which is what [fnmatch]
    does when no ["]"] follows it. *)
Inductive token : Type :=
| Star
| Any
| Lit (c : ascii).

Fixpoint translate (pat : string) : list token :=
  match pat with
  | EmptyString => []
  | String c pat' =>
      (if Ascii.eqb c "*" then Star
       else if Ascii.eqb c "?" then Any
       else Lit c) :: translate pat'
  end.

Fixpoint fnmatch (p : list token) (s : string) : bool :=
  match p with
  | [] => match s with EmptyString => true | _ => false end
  | Star :: p' =>
      (fix star (s : string) : bool :=
         fnmatch p' s
         || match s with
            | EmptyString => false
            | String _ s' => star s'
            end) s
  | Any :: p' =>
      match s with
      | EmptyString => false
      | String _ s' => fnmatch p' s'
      end
  | Lit c :: p' =>
      match s with
      | EmptyString => false
      | String d s' => Ascii.eqb c d && fnmatch p' s'
      end
  end.

Definition ishidden (s : string) : bool :=
  match s with
  | String "." _ => true
  | _ => false
  end.

(** [glob.glob(str(dir / pattern))]: the entries of [dir] whose name matches;
    a pattern that does not start with a dot skips the names that do. *)
Definition glob (dir : Path) (pattern : string) : list file :=
  filter
    (fun f => (ishidden pattern || negb (ishidden (name f)))
              && fnmatch (translate pattern) (name f))
    (listing dir).

(** [max(first :: rest, key=...)]: the first of the greatest. *)
Fixpoint max_by_key {A : Type} (key : A -> Q) (best : A) (rest : list A) : A :=
  match rest with
  | [] => best
  | a :: rest' =>
      max_by_key key
        (match Qcompare (key best) (key a) with Lt => a | _ => best end) rest'
  end.

(** ** Section 1 of the source: parameter configuration *)

Record RiskConfig : Type := {
  BASELINE_WORKLOAD : float;
  EXERTION_TOLERANCE_PCT : float;
  STABILITY_THRESHOLD_SD : float;
  SILENCE_THRESHOLD : float;
  SILENCE_RATIO_LIMIT : float
}.

Definition default_config : RiskConfig := {|
  BASELINE_WORKLOAD := of_Z 1400;
  EXERTION_TOLERANCE_PCT := of_Z 50;
  STABILITY_THRESHOLD_SD := of_Z 300;
  SILENCE_THRESHOLD := of_Z 100;
  SILENCE_RATIO_LIMIT := Fin (3 # 10)
|}.

(** ** The agent *)

Record RehabRiskAgent : Type := {
  patient_id : string;
  data_dir : Path;
  config : RiskConfig;
  risks : list string
}.

(** [RehabRiskAgent.__init__] *)
Definition init (patient_id : string) (data_dir : Path) (config : RiskConfig)
    : RehabRiskAgent :=
  {| patient_id := patient_id; data_dir := data_dir; config := config;
     risks := [] |}.

(** [self.risks.append(label)] *)
Definition append_risk (self : RehabRiskAgent) (label : string) : RehabRiskAgent :=
  {| patient_id := patient_id self; data_dir := data_dir self;
     config := config self; risks := risks self ++ [label] |}.

(** The body of the [try] block of [_load_and_clean] after [read_csv]: the
    column check, the coercion of the designated column and the row filter. *)
Definition clean (df : DataFrame) (col_index : nat) : result (option DataFrame) :=
  if (shape1 df <=? col_index)%nat then Ok None
  else
    col <- iloc df col_index ;;
    df <- iloc_set df col_index (to_numeric col) ;;
    col <- iloc df col_index ;;
    mask <- series_gt col (of_Z 10) ;;
    Ok (Some (getitem_mask df mask)).

Definition specific_pattern (patient_id file_keyword : string) : string :=
  "*" ++ patient_id ++ "*" ++ file_keyword ++ "*.csv".

Definition keyword_pattern (file_keyword : string) : string :=
  "*" ++ file_keyword ++ "*.csv".

(** The file that [_load_and_clean] settles on, if any. *)
Definition latest_file (self : RehabRiskAgent) (file_keyword : string)
    : option file :=
  let files := glob (data_dir self) (specific_pattern (patient_id self) file_keyword) in
  let files :=
    match files with
    | [] => glob (data_dir self) (keyword_pattern file_keyword)
    | _ => files
    end in
  match files with
  | [] => None
  | f :: fs => Some (max_by_key st_mtime f fs)
  end.

Definition _load_and_clean (self : RehabRiskAgent) (file_keyword : string)
    (col_index : nat) : option DataFrame :=
  match latest_file self file_keyword with
  | None => None
  | Some latest =>
      try_or_None (df <- read_csv (lines latest) ;; clean df col_index)
  end.

(** What a run has done so far: the agent with its risk labels, and the
    strings printed. *)
Definition run : Type := (RehabRiskAgent * list string)%type.

Definition print (out : list string) (s : string) : list string := out ++ [s].

(** [analyze], block 1: respiratory analysis (speak) *)
Definition analyze_speak (r : run) : result run :=
  let (self, out) := r in
  match _load_and_clean self "speak" 2 with
  | Some df_speak =>
      col <- iloc df_speak 2 ;;
      a <- series_abs col ;;
      mask <- series_lt a (SILENCE_THRESHOLD (config self)) ;;
      let gap_ratio :=
        Float.div (of_nat (mask_sum mask)) (of_nat (len df_speak)) in
      let out := print out ("   Speak Pause Ratio: " ++ format_pct 1 gap_ratio) in
      if Float.gtb gap_ratio (SILENCE_RATIO_LIMIT (config self))
      then Ok (append_risk self ("Respiratory Risk (" ++ format_pct 1 gap_ratio ++ ")"), out)
      else Ok (self, out)
  | None =>
      Ok (self, print out "   Warning: Speak file not found or invalid format")
  end.

(** [analyze], block 2: fatigue/exertion analysis (bike) *)
Definition analyze_bike (r : run) : result run :=
  let (self, out) := r in
  match _load_and_clean self "bike_level1" 2 with
  | Some df_bike =>
      col <- iloc df_bike 2 ;;
      avg_load <- series_mean col ;;
      let delta :=
        Float.mul
          (Float.div (Float.sub avg_load (BASELINE_WORKLOAD (config self)))
                     (BASELINE_WORKLOAD (config self)))
          (of_Z 100) in
      let out := print out ("   Bike Load Variation: " ++ format_f 1 delta ++ "%") in
      if Float.gtb delta (EXERTION_TOLERANCE_PCT (config self))
      then Ok (append_risk self ("PEM Risk (" ++ format_f 0 delta ++ "%)"), out)
      else Ok (self, out)
  | None =>
      Ok (self, print out "   Warning: Bike file not found or invalid format")
  end.

(** [analyze], block 3: stability analysis (static) *)
Definition analyze_static (r : run) : result run :=
  let (self, out) := r in
  match _load_and_clean self "static_level1" 3 with
  | Some df_static =>
      if (4 <? shape1 df_static)%nat then
        col4 <- iloc df_static 4 ;;
        df_static <- iloc_set df_static 4 (to_numeric col4) ;;
        col3 <- iloc df_static 3 ;;
        std3 <- series_std col3 ;;
        col4 <- iloc df_static 4 ;;
        std4 <- series_std col4 ;;
        let max_std := py_max std3 std4 in
        let out := print out ("   Static Stability (SD): " ++ format_f 1 max_std) in
        if Float.gtb max_std (STABILITY_THRESHOLD_SD (config self))
        then Ok (append_risk self ("Neuro Risk (" ++ format_f 0 max_std ++ ")"), out)
        else Ok (self, out)
      else
        Ok (self, print out "   Warning: Static data missing Y-axis column")
  | None =>
      Ok (self, print out "   Warning: Static file not found or invalid format")
  end.

Definition newline : string := String (ascii_of_nat 10) EmptyString.

Fixpoint str_repeat (s : string) (n : nat) : string :=
  match n with
  | O => ""
  | S n' => s ++ str_repeat s n'
  end.

Definition analyze (r : run) : result run :=
  let (self, out) := r in
  let out := print out (newline ++ "Analyzing Folder: " ++ dir_name (data_dir self)) in
  let out := print out ("Identified Patient ID: " ++ patient_id self) in
  let out := print out (str_repeat "-" 40) in
  r <- analyze_speak (self, out) ;;
  r <- analyze_bike r ;;
  analyze_static r.

Definition get_result (self : RehabRiskAgent) : string :=
  match risks self with
  | [] => "PASS (Healthy Data)"
  | _ => "FAIL (" ++ String.concat "; " (risks self) ++ ")"
  end.

(** * Definitions used in the statements *)

(** What the cleaner does to one row, and which rows it keeps. *)
Definition coerce_row (c : nat) (r : list cell) : list cell :=
  set_nth c (Num (to_numeric_cell (nth c r (Num NaN)))) r.

Definition keep_row (c : nat) (r : list cell) : bool :=
  Float.gtb (to_numeric_cell (nth c r (Num NaN))) (of_Z 10).

(** Order-preserving selection of elements. *)
Inductive subsequence {A : Type} : list A -> list A -> Prop :=
| subsequence_nil : subsequence [] []
| subsequence_skip a l1 l2 : subsequence l1 l2 -> subsequence l1 (a :: l2)
| subsequence_keep a l1 l2 : subsequence l1 l2 -> subsequence (a :: l1) (a :: l2).

(** The metric each block computes, as a function of the numbers in the
    cleaned column. *)
Definition pause_ratio (cfg : RiskConfig) (xs : list float) (n : nat) : float :=
  Float.div
    (of_nat (mask_sum
               (map (fun v => Float.ltb v (SILENCE_THRESHOLD cfg))
                    (map Float.abs xs))))
    (of_nat n).

Definition delta_pct (cfg : RiskConfig) (avg_load : float) : float :=
  Float.mul
    (Float.div (Float.sub avg_load (BASELINE_WORKLOAD cfg)) (BASELINE_WORKLOAD cfg))
    (of_Z 100).

Definition column_numbers (df : DataFrame) (c : nat) : list float :=
  map (fun r => to_numeric_cell (nth c r (Num NaN))) (rows df).

(** No label, or one label that starts with [prefix] and ends with a
    closing parenthesis. *)
Definition label_opt (prefix : string) (l : list string) : Prop :=
  l = [] \/ exists x, l = [prefix ++ x ++ ")"].

(** [self'] is [self] with the labels [l] appended to its risks. *)
Definition appended (self self' : RehabRiskAgent) (l : list string) : Prop :=
  patient_id self' = patient_id self
  /\ data_dir self' = data_dir self
  /\ config self' = config self
  /\ risks self' = (risks self ++ l)%list.





(** No character that [fnmatch] reads as a wildcard. *)
Fixpoint plain (s : string) : bool :=
  match s with
  | EmptyString => true
  | String c s' =>
      negb (Ascii.eqb c "*") && negb (Ascii.eqb c "?") && negb (Ascii.eqb c "[")
      && plain s'
  end.


Fixpoint literal (s : string) : list token :=
  match s with
  | EmptyString => []
  | String c s' => Lit c :: literal s'
  end.

(** ** Example sessions *)

Definition zero : cell := Num (of_Z 0).

Definition row3 (v : Z) : list cell := [zero; zero; Num (of_Z v)].


Definition session (files : list file) : Path :=
  {| dir_name := "patient_123"; listing := files |}.

Definition agent_on (files : list file) : RehabRiskAgent :=
  init "123" (session files) default_config.

(** The speech table of the specification's example: five samples at 5 and
    five at 200. *)
Definition speak_5_200 : file :=
  {| name := "123_speak.csv"; st_mtime := 1;
     lines := map row3 [5; 5; 5; 5; 5; 200; 200; 200; 200; 200]%Z |}.

(** The same with the quiet samples at 50, above the noise floor. *)
Definition speak_50_200 : file :=
  {| name := "123_speak.csv"; st_mtime := 1;
     lines := map row3 [50; 50; 50; 50; 50; 200; 200; 200; 200; 200]%Z |}.



Definition bike_low : file :=
  {| name := "123_bike_level1.csv"; st_mtime := 1;
     lines := map row3 [20; 30; 40]%Z |}.

Definition bike_high : file :=
  {| name := "123_bike_level1.csv"; st_mtime := 1;
     lines := map row3 [2000; 2200; 2400]%Z |}.

(** A static table without the fifth column. *)
Definition static_4col : file :=
  {| name := "123_static_level1.csv"; st_mtime := 1;
     lines := [[zero; zero; zero; Num (of_Z 20)];
               [zero; zero; zero; Num (of_Z 900)]] |}.







(** ** Sections 2 and 3 of the source: folder selection and the main block *)

(** [str.isspace] on the ASCII range. *)
Definition isspace (c : ascii) : bool :=
  let n := nat_of_ascii c in
  ((9 <=? n)%nat && (n <=? 13)%nat)
  || ((28 <=? n)%nat && (n <=? 32)%nat).

Fixpoint lstrip (s : string) : string :=
  match s with
  | EmptyString => EmptyString
  | String c s' => if isspace c then lstrip s' else s
  end.

Fixpoint rstrip (s : string) : string :=
  match s with
  | EmptyString => EmptyString
  | String c s' =>
      match rstrip s' with
      | EmptyString => if isspace c then EmptyString else String c EmptyString
      | r => String c r
      end
  end.

(** [s.strip()] *)
Definition strip (s : string) : string := rstrip (lstrip s).

(** [pick_folder_safely].  The child process that shows the dialog is the
    environment: [launch] is what [subprocess.run] gave, the captured
    standard output or the message of the exception raised.  The result is
    the folder path, if any, and what was printed. *)
Definition pick_folder_safely (launch : string + string) (out : list string)
    : option string * list string :=
  let out := print out "Opening selection window, please wait..." in
  match launch with
  | inl stdout =>
      let folder_path := strip stdout in
      (match folder_path with
       | EmptyString => None
       | _ => Some folder_path
       end, out)
  | inr e => (None, print out ("Error: Window launch failed: " ++ e))
  end.

(** [\d] on the ASCII range. *)
Definition isdigit (c : ascii) : bool :=
  let n := nat_of_ascii c in (48 <=? n)%nat && (n <=? 57)%nat.

Fixpoint take_digits (s : string) : string :=
  match s with
  | EmptyString => EmptyString
  | String c s' => if isdigit c then String c (take_digits s') else EmptyString
  end.

(** [re.search(r'(\d+)', s)], group 1: the first run of digits, as long as
    it goes. *)
Fixpoint search_digits (s : string) : option string :=
  match s with
  | EmptyString => None
  | String c s' => if isdigit c then Some (take_digits s) else search_digits s'
  end.

(** The identifier that the main block derives from the folder name. *)
Definition extract_patient_id (folder_name : string) : string :=
  match search_digits folder_name with
  | Some id => id
  | None => folder_name
  end.

(** [Path(p).name] for a POSIX path: the last component, where empty
    components and ["."] do not count. *)
Fixpoint path_name_from (current last : string) (p : string) : string :=
  let close :=
    match current with
    | EmptyString => last
    | String "." EmptyString => last
    | _ => current
    end in
  match p with
  | EmptyString => close
  | String c p' =>
      if Ascii.eqb c "/" then path_name_from EmptyString close p'
      else path_name_from (current ++ String c EmptyString) last p'
  end.

Definition path_name (p : string) : string :=
  path_name_from EmptyString EmptyString p.

(** The main block.  [fs] gives the entries of the directory at a path. *)
Definition main (launch : string + string) (fs : string -> list file)
    : result (list string) :=
  let out := print [] "--- Starting Generic Rehab Risk Agent ---" in
  let (selected_path, out) := pick_folder_safely launch out in
  match selected_path with
  | Some selected_path =>
      let target_folder :=
        {| dir_name := path_name selected_path; listing := fs selected_path |} in
      let patient_id := extract_patient_id (dir_name target_folder) in
      let agent := init patient_id target_folder default_config in
      r <- analyze (agent, out) ;;
      let (agent, out) := r in
      let out := print out (newline ++ str_repeat "=" 40) in
      let out := print out ("Final Result (ID: " ++ patient_id ++ "): "
                            ++ get_result agent) in
      Ok (print out (str_repeat "=" 40))
  | None => Ok (print out "Error: No folder selected.")
  end.

(** ** Definitions used in the further statements *)

Fixpoint all_chars (f : ascii -> bool) (s : string) : bool :=
  match s with
  | EmptyString => true
  | String c s' => f c && all_chars f s'
  end.

Definition starts_with_char (f : ascii -> bool) (s : string) : bool :=
  match s with
  | EmptyString => false
  | String c _ => f c
  end.

Fixpoint last_char (f : ascii -> bool) (s : string) : bool :=
  match s with
  | EmptyString => false
  | String c EmptyString => f c
  | String _ s' => last_char f s'
  end.

(** A running sum that has passed [10 * k]. *)
Definition sum_above (k : nat) (acc : float) : Prop :=
  acc = Inf false
  \/ exists s, acc = Fin s /\ (10 * inject_Z (Z.of_nat k) < s)%Q.

(** The three file keywords of [analyze]. *)
Definition keywords : list string := ["speak"; "bike_level1"; "static_level1"].

(** * Properties *)

(** ** Checks of the arithmetic, the formatting and the statistics *)

Example sqrt_22500 : Float.sqrt (of_Z 22500) = of_Z 150.
Proof. vm_compute. reflexivity. Qed.

Example div_0_0 : Float.div (of_Z 0) (of_Z 0) = NaN.
Proof. reflexivity. Qed.

Example format_f_57 : format_f 0 (Fin (400 # 7)) = "57".
Proof. reflexivity. Qed.
Example format_f_571 : format_f 1 (Fin (400 # 7)) = "57.1".
Proof. reflexivity. Qed.
Example format_f_neg : format_f 1 (Fin (- 1 # 25)) = "-0.0".
Proof. reflexivity. Qed.
Example format_f_tie : format_f 0 (Fin (5 # 2)) = "2".
Proof. reflexivity. Qed.
Example format_pct_half : format_pct 1 (Fin (1 # 2)) = "50.0%".
Proof. reflexivity. Qed.
Example format_f_pad : format_f 2 (Fin (301 # 100)) = "3.01".
Proof. reflexivity. Qed.
Example parse_12_5 : parse_float "12.5" = Fin (25 # 2).
Proof. reflexivity. Qed.
Example parse_neg : parse_float "-3" = Fin (- 3 # 1).
Proof. reflexivity. Qed.
Example parse_abc : parse_float "abc" = NaN.
Proof. reflexivity. Qed.
Example parse_dot : parse_float "." = NaN.
Proof. reflexivity. Qed.

Example std_col3 :
  series_std [Num (of_Z 850); Num (of_Z 1000); Num (of_Z 1150)] = Ok (of_Z 150).
Proof. vm_compute. reflexivity. Qed.
Example std_one : series_std [Num (of_Z 850)] = Ok NaN.
Proof. reflexivity. Qed.
Example mean_empty : series_mean [] = Ok NaN.
Proof. reflexivity. Qed.

(** The exertion example of the specification: mean 2200 against the
    baseline 1400. *)
Example exertion_example :
  analyze_bike (agent_on [bike_high], []) =
  Ok (append_risk (agent_on [bike_high]) "PEM Risk (57%)",
      ["   Bike Load Variation: 57.1%"]).
Proof. reflexivity. Qed.

(** ** Strings *)

Lemma append_assoc (a b c : string) : (a ++ b) ++ c = a ++ (b ++ c).
Proof. induction a as [|x a IH]; simpl; [reflexivity | now rewrite IH]. Qed.


(** ** Comparisons with NaN *)

Lemma ltb_nan_r (x : float) : Float.ltb x NaN = false.
Proof. destruct x; reflexivity. Qed.

Lemma gtb_nan_l (x : float) : Float.gtb NaN x = false.
Proof. apply ltb_nan_r. Qed.


Lemma gtb_not_nan (x y : float) : Float.gtb x y = true -> is_nan x = false.
Proof. destruct x; [rewrite gtb_nan_l; discriminate | reflexivity ..]. Qed.



(** ** The table cleaner *)

Lemma nth_set_nth (i : nat) (x : float) (r : list cell) :
  nth i (set_nth i (Num x) r) (Num NaN) =
  if (i <? List.length r)%nat then Num x else Num NaN.
Proof.
  revert i; induction r as [|c r IH]; intros [|i]; simpl; try reflexivity.
  apply IH.
Qed.

Lemma nth_set_nth_other (i j : nat) (c : cell) (r : list cell) :
  i <> j -> nth j (set_nth i c r) (Num NaN) = nth j r (Num NaN).
Proof.
  revert i j; induction r as [|c' r IH]; intros [|i] [|j] H; simpl;
    try reflexivity; try congruence.
  apply IH. congruence.
Qed.

Lemma nth_coerce_row (c : nat) (r : list cell) :
  nth c (coerce_row c r) (Num NaN) = Num (to_numeric_cell (nth c r (Num NaN))).
Proof.
  unfold coerce_row. rewrite nth_set_nth.
  destruct (Nat.ltb_spec c (List.length r)) as [H|H]; [reflexivity|].
  now rewrite nth_overflow.
Qed.

Lemma nth_coerce_row_other (c j : nat) (r : list cell) :
  c <> j -> nth j (coerce_row c r) (Num NaN) = nth j r (Num NaN).
Proof. apply nth_set_nth_other. Qed.

Lemma keep_coerce_row (c : nat) (r : list cell) :
  keep_row c (coerce_row c r) = keep_row c r.
Proof. unfold keep_row. now rewrite nth_coerce_row. Qed.

Lemma set_nth_same (i : nat) (r : list cell) (c : cell) :
  nth_error r i = Some c -> set_nth i c r = r.
Proof.
  revert i; induction r as [|c' r IH]; intros [|i]; simpl; try discriminate.
  - congruence.
  - intros H. now rewrite IH.
Qed.

Lemma set_nth_short (i : nat) (r : list cell) (c : cell) :
  (List.length r <= i)%nat -> set_nth i c r = r.
Proof.
  revert i; induction r as [|c' r IH]; intros [|i]; simpl; try reflexivity.
  - lia.
  - intros H. rewrite IH; [reflexivity | lia].
Qed.

Lemma coerce_row_idem (c : nat) (r : list cell) :
  coerce_row c (coerce_row c r) = coerce_row c r.
Proof.
  unfold coerce_row at 1. rewrite nth_coerce_row. simpl.
  destruct (Nat.ltb_spec c (List.length r)) as [H|H].
  - apply set_nth_same. unfold coerce_row.
    clear - H. revert c H; induction r as [|c' r IH]; intros [|c] H; simpl in *;
      try lia; try reflexivity.
    apply IH. lia.
  - unfold coerce_row. rewrite (set_nth_short c r) by assumption.
    now apply set_nth_short.
Qed.

Lemma set_column_to_numeric (c : nat) (rs : list (list cell)) :
  set_column c rs (to_numeric (map (fun r => nth c r (Num NaN)) rs)) =
  map (coerce_row c) rs.
Proof. induction rs as [|r rs IH]; simpl; [reflexivity | now rewrite IH]. Qed.

Lemma values_Num (xs : list float) : values (map Num xs) = Ok xs.
Proof.
  induction xs as [|x xs IH]; [reflexivity|].
  unfold values in *. simpl. now rewrite IH.
Qed.

Lemma column_coerced (c : nat) (rs : list (list cell)) :
  map (fun r => nth c r (Num NaN)) (map (coerce_row c) rs) =
  map Num (map (fun r => to_numeric_cell (nth c r (Num NaN))) rs).
Proof.
  rewrite !map_map. apply map_ext. intros r. apply nth_coerce_row.
Qed.

Lemma column_other (c j : nat) (rs : list (list cell)) :
  c <> j ->
  map (fun r => nth j r (Num NaN)) (map (coerce_row c) rs) =
  map (fun r => nth j r (Num NaN)) rs.
Proof.
  intros H. rewrite map_map. apply map_ext. intros r.
  now apply nth_coerce_row_other.
Qed.

Lemma select_map {A : Type} (f : A -> bool) (l : list A) :
  select l (map f l) = filter f l.
Proof.
  induction l as [|a l IH]; simpl; [reflexivity|].
  rewrite IH. reflexivity.
Qed.

(** The cleaner in closed form. *)
Lemma clean_eq (df : DataFrame) (c : nat) :
  (c < shape1 df)%nat ->
  clean df c =
  Ok (Some {| shape1 := shape1 df;
              rows := filter (keep_row c) (map (coerce_row c) (rows df)) |}).
Proof.
  intros H. unfold clean, iloc, iloc_set.
  destruct (Nat.leb_spec (shape1 df) c) as [H'|_]; [lia|]. simpl.
  destruct (Nat.leb_spec (shape1 df) c) as [H'|_]; [lia|]. simpl.
  destruct (Nat.leb_spec (shape1 df) c) as [H'|_]; [lia|]. simpl.
  rewrite set_column_to_numeric, column_coerced.
  unfold series_gt. rewrite values_Num. simpl.
  unfold getitem_mask. simpl. f_equal. f_equal. f_equal.
  rewrite <- (select_map (keep_row c)).
  f_equal. rewrite !map_map. apply map_ext. intros r.
  unfold keep_row. now rewrite nth_coerce_row.
Qed.

Lemma clean_short (df : DataFrame) (c : nat) :
  (shape1 df <= c)%nat -> clean df c = Ok None.
Proof.
  intros H. unfold clean.
  destruct (Nat.leb_spec (shape1 df) c); [reflexivity | lia].
Qed.

Lemma filter_all {A : Type} (f : A -> bool) (l : list A) :
  Forall (fun a => f a = true) l -> filter f l = l.
Proof.
  induction 1 as [|a l Ha _ IH]; simpl; [reflexivity|].
  now rewrite Ha, IH.
Qed.

Lemma map_fixed {A : Type} (f : A -> A) (l : list A) :
  Forall (fun a => f a = a) l -> map f l = l.
Proof.
  induction 1 as [|a l Ha _ IH]; simpl; [reflexivity|].
  now rewrite Ha, IH.
Qed.

Lemma cleaned_rows_fixed (c : nat) (rs : list (list cell)) :
  Forall (fun r => coerce_row c r = r /\ keep_row c r = true)
         (filter (keep_row c) (map (coerce_row c) rs)).
Proof.
  apply Forall_forall. intros r Hr.
  apply filter_In in Hr. destruct Hr as [Hin Hk].
  apply in_map_iff in Hin. destruct Hin as [r0 [<- _]].
  split; [apply coerce_row_idem | exact Hk].
Qed.

Lemma cleaned_rows_idem (c : nat) (rs : list (list cell)) :
  let rs' := filter (keep_row c) (map (coerce_row c) rs) in
  filter (keep_row c) (map (coerce_row c) rs') = rs'.
Proof.
  intros rs'. pose proof (cleaned_rows_fixed c rs) as H. fold rs' in H.
  rewrite map_fixed.
  - apply filter_all. eapply Forall_impl; [|exact H]. now intros r [_ Hk].
  - eapply Forall_impl; [|exact H]. now intros r [Hc _].
Qed.

(** A kept row holds a number greater than 10 in the designated column. *)
Lemma kept_row_numeric (c : nat) (r : list cell) :
  keep_row c (coerce_row c r) = true ->
  exists x, nth_error (coerce_row c r) c = Some (Num x)
            /\ is_nan x = false /\ Float.ltb (of_Z 10) x = true.
Proof.
  rewrite keep_coerce_row. unfold keep_row. intros Hk.
  exists (to_numeric_cell (nth c r (Num NaN))).
  split; [|split; [eapply gtb_not_nan; exact Hk | exact Hk]].
  destruct (Nat.ltb_spec c (List.length r)) as [H|H].
  - unfold coerce_row.
    generalize (to_numeric_cell (nth c r (Num NaN))). intros x.
    clear Hk. revert c H; induction r as [|c' r IH]; intros [|c] H; simpl in *;
      try lia; try reflexivity.
    apply IH. lia.
  - rewrite nth_overflow in Hk by assumption. discriminate Hk.
Qed.

Lemma filter_subsequence {A : Type} (f : A -> bool) (l : list A) :
  subsequence (filter f l) l.
Proof.
  induction l as [|a l IH]; simpl; [constructor|].
  destruct (f a); now constructor.
Qed.

(** What a successful [_load_and_clean] went through. *)
Lemma load_and_clean_inv (self : RehabRiskAgent) (kw : string) (c : nat)
    (df : DataFrame) :
  _load_and_clean self kw c = Some df ->
  exists f df0,
    latest_file self kw = Some f
    /\ read_csv (lines f) = Ok df0
    /\ (c < shape1 df0)%nat
    /\ df = {| shape1 := shape1 df0;
               rows := filter (keep_row c) (map (coerce_row c) (rows df0)) |}.
Proof.
  unfold _load_and_clean. destruct (latest_file self kw) as [f|]; [|discriminate].
  destruct (read_csv (lines f)) as [df0|e] eqn:Hread; simpl; [|discriminate].
  destruct (Nat.ltb_spec c (shape1 df0)) as [H|H].
  - rewrite clean_eq by assumption. simpl. intros [= <-].
    exists f, df0. auto.
  - rewrite clean_short by assumption. discriminate.
Qed.

(** The designated column of a cleaned table holds numbers that can be
    compared and averaged. *)
Lemma load_and_clean_column (self : RehabRiskAgent) (kw : string) (c : nat)
    (df : DataFrame) :
  _load_and_clean self kw c = Some df ->
  exists xs, iloc df c = Ok (map Num xs)
             /\ Forall (fun x => Float.gtb x (of_Z 10) = true) xs
             /\ List.length xs = len df.
Proof.
  intros H. apply load_and_clean_inv in H.
  destruct H as (f & df0 & _ & _ & Hc & ->).
  unfold iloc, len. simpl.
  destruct (Nat.leb_spec (shape1 df0) c) as [H'|_]; [lia|].
  pose proof (cleaned_rows_fixed c (rows df0)) as Hfix.
  set (rs := filter (keep_row c) (map (coerce_row c) (rows df0))) in *.
  exists (map (fun r => to_numeric_cell (nth c r (Num NaN))) rs).
  split; [|split].
  - f_equal. rewrite map_map.
    apply map_ext_in. intros r Hr.
    rewrite Forall_forall in Hfix. destruct (Hfix r Hr) as [Hco _].
    rewrite <- Hco at 1. apply nth_coerce_row.
  - apply Forall_map. eapply Forall_impl; [|exact Hfix].
    intros r [_ Hk]. exact Hk.
  - apply length_map.
Qed.

(** ** The three metric blocks in closed form *)

Lemma analyze_speak_eq (self : RehabRiskAgent) (out : list string)
    (df : DataFrame) (xs : list float) :
  _load_and_clean self "speak" 2 = Some df ->
  iloc df 2 = Ok (map Num xs) ->
  analyze_speak (self, out) =
  let gap_ratio := pause_ratio (config self) xs (len df) in
  let out := print out ("   Speak Pause Ratio: " ++ format_pct 1 gap_ratio) in
  if Float.gtb gap_ratio (SILENCE_RATIO_LIMIT (config self))
  then Ok (append_risk self ("Respiratory Risk (" ++ format_pct 1 gap_ratio ++ ")"), out)
  else Ok (self, out).
Proof.
  intros Hload Hcol. unfold analyze_speak. rewrite Hload, Hcol.
  cbn [bind]. unfold series_abs. rewrite values_Num. cbn [bind].
  unfold series_lt. rewrite <- (map_map Float.abs Num), values_Num. cbn [bind].
  reflexivity.
Qed.

Lemma analyze_bike_eq (self : RehabRiskAgent) (out : list string)
    (df : DataFrame) (xs : list float) :
  _load_and_clean self "bike_level1" 2 = Some df ->
  iloc df 2 = Ok (map Num xs) ->
  analyze_bike (self, out) =
  let delta := delta_pct (config self) (nanmean xs) in
  let out := print out ("   Bike Load Variation: " ++ format_f 1 delta ++ "%") in
  if Float.gtb delta (EXERTION_TOLERANCE_PCT (config self))
  then Ok (append_risk self ("PEM Risk (" ++ format_f 0 delta ++ "%)"), out)
  else Ok (self, out).
Proof.
  intros Hload Hcol. unfold analyze_bike. rewrite Hload, Hcol.
  cbn [bind]. unfold series_mean. rewrite values_Num. cbn [bind].
  reflexivity.
Qed.

Lemma analyze_static_eq (self : RehabRiskAgent) (out : list string)
    (df : DataFrame) (xs : list float) :
  _load_and_clean self "static_level1" 3 = Some df ->
  (4 < shape1 df)%nat ->
  iloc df 3 = Ok (map Num xs) ->
  analyze_static (self, out) =
  let max_std := py_max (nanstd xs) (nanstd (column_numbers df 4)) in
  let out := print out ("   Static Stability (SD): " ++ format_f 1 max_std) in
  if Float.gtb max_std (STABILITY_THRESHOLD_SD (config self))
  then Ok (append_risk self ("Neuro Risk (" ++ format_f 0 max_std ++ ")"), out)
  else Ok (self, out).
Proof.
  intros Hload Hshape Hcol. unfold analyze_static. rewrite Hload.
  destruct (Nat.ltb_spec 4 (shape1 df)) as [_|H']; [|lia].
  unfold iloc in Hcol. unfold iloc, iloc_set.
  destruct (Nat.leb_spec (shape1 df) 4) as [H'|_]; [lia|].
  destruct (Nat.leb_spec (shape1 df) 3) as [H'|_]; [lia|].
  cbn [bind shape1 rows].
  destruct (Nat.leb_spec (shape1 df) 4) as [H'|_]; [lia|].
  destruct (Nat.leb_spec (shape1 df) 3) as [H'|_]; [lia|].
  cbn [bind].
  rewrite set_column_to_numeric, column_coerced, column_other by discriminate.
  injection Hcol as Hcol. rewrite Hcol.
  unfold series_std. rewrite !values_Num. cbn [bind].
  reflexivity.
Qed.

Lemma analyze_static_short (self : RehabRiskAgent) (out : list string)
    (df : DataFrame) :
  _load_and_clean self "static_level1" 3 = Some df ->
  (shape1 df <= 4)%nat ->
  analyze_static (self, out) =
  Ok (self, print out "   Warning: Static data missing Y-axis column").
Proof.
  intros Hload Hshape. unfold analyze_static. rewrite Hload.
  destruct (Nat.ltb_spec 4 (shape1 df)) as [H'|_]; [lia | reflexivity].
Qed.

(** ** Every block completes, and adds at most its own label *)

Lemma appended_nil (self : RehabRiskAgent) : appended self self [].
Proof. unfold appended. now rewrite app_nil_r. Qed.

Lemma appended_one (self : RehabRiskAgent) (label : string) :
  appended self (append_risk self label) [label].
Proof. unfold appended. simpl. auto. Qed.

Lemma appended_trans (a b c : RehabRiskAgent) (l1 l2 : list string) :
  appended a b l1 -> appended b c l2 -> appended a c (l1 ++ l2)%list.
Proof.
  unfold appended. intros (H1 & H2 & H3 & H4) (H5 & H6 & H7 & H8).
  rewrite H5, H6, H7, H8, H4, app_assoc. auto.
Qed.

Lemma analyze_speak_total (self : RehabRiskAgent) (out : list string) :
  exists self' out' l,
    analyze_speak (self, out) = Ok (self', out')
    /\ appended self self' l /\ label_opt "Respiratory Risk (" l.
Proof.
  destruct (_load_and_clean self "speak" 2) as [df|] eqn:Hload.
  - destruct (load_and_clean_column _ _ _ _ Hload) as (xs & Hcol & _ & _).
    rewrite (analyze_speak_eq _ _ _ _ Hload Hcol). cbv zeta.
    destruct (Float.gtb _ _).
    + eexists _, _, _. split; [reflexivity|]. split; [apply appended_one|].
      right. exists (format_pct 1 (pause_ratio (config self) xs (len df))).
      reflexivity.
    + eexists _, _, _. split; [reflexivity|]. split; [apply appended_nil|].
      now left.
  - unfold analyze_speak. rewrite Hload.
    eexists _, _, _. split; [reflexivity|]. split; [apply appended_nil|].
    now left.
Qed.

Lemma analyze_bike_total (self : RehabRiskAgent) (out : list string) :
  exists self' out' l,
    analyze_bike (self, out) = Ok (self', out')
    /\ appended self self' l /\ label_opt "PEM Risk (" l.
Proof.
  destruct (_load_and_clean self "bike_level1" 2) as [df|] eqn:Hload.
  - destruct (load_and_clean_column _ _ _ _ Hload) as (xs & Hcol & _ & _).
    rewrite (analyze_bike_eq _ _ _ _ Hload Hcol). cbv zeta.
    destruct (Float.gtb _ _).
    + eexists _, _, _. split; [reflexivity|]. split; [apply appended_one|].
      right.
      exists (format_f 0 (delta_pct (config self) (nanmean xs)) ++ "%").
      now rewrite append_assoc.
    + eexists _, _, _. split; [reflexivity|]. split; [apply appended_nil|].
      now left.
  - unfold analyze_bike. rewrite Hload.
    eexists _, _, _. split; [reflexivity|]. split; [apply appended_nil|].
    now left.
Qed.

(** Column 3 of a cleaned static table with five columns or more. *)
Lemma static_column3 (self : RehabRiskAgent) (df : DataFrame) :
  _load_and_clean self "static_level1" 3 = Some df ->
  exists xs, iloc df 3 = Ok (map Num xs)
             /\ Forall (fun x => Float.gtb x (of_Z 10) = true) xs
             /\ List.length xs = len df.
Proof. apply load_and_clean_column. Qed.

Lemma analyze_static_total (self : RehabRiskAgent) (out : list string) :
  exists self' out' l,
    analyze_static (self, out) = Ok (self', out')
    /\ appended self self' l /\ label_opt "Neuro Risk (" l.
Proof.
  destruct (_load_and_clean self "static_level1" 3) as [df|] eqn:Hload.
  - destruct (Nat.ltb_spec 4 (shape1 df)) as [Hshape|Hshape].
    + destruct (static_column3 _ _ Hload) as (xs & Hcol & _ & _).
      rewrite (analyze_static_eq _ _ _ _ Hload Hshape Hcol). cbv zeta.
      destruct (Float.gtb _ _).
      * eexists _, _, _. split; [reflexivity|]. split; [apply appended_one|].
        right.
        exists (format_f 0 (py_max (nanstd xs) (nanstd (column_numbers df 4)))).
        reflexivity.
      * eexists _, _, _. split; [reflexivity|]. split; [apply appended_nil|].
        now left.
    + rewrite (analyze_static_short _ _ _ Hload Hshape).
      eexists _, _, _. split; [reflexivity|]. split; [apply appended_nil|].
      now left.
  - unfold analyze_static. rewrite Hload.
    eexists _, _, _. split; [reflexivity|]. split; [apply appended_nil|].
    now left.
Qed.

(** The whole analysis completes for every directory and configuration,
    and appends the labels of the three blocks in the order of the
    blocks. *)
Lemma analyze_total (self : RehabRiskAgent) (out : list string) :
  exists self' out' resp pem neuro,
    analyze (self, out) = Ok (self', out')
    /\ appended self self' (resp ++ pem ++ neuro)%list
    /\ label_opt "Respiratory Risk (" resp
    /\ label_opt "PEM Risk (" pem
    /\ label_opt "Neuro Risk (" neuro.
Proof.
  unfold analyze.
  destruct (analyze_speak_total self
    (print (print (print out (newline ++ "Analyzing Folder: " ++ dir_name (data_dir self)))
                  ("Identified Patient ID: " ++ patient_id self))
           (str_repeat "-" 40)))
    as (s1 & o1 & l1 & E1 & A1 & L1).
  destruct (analyze_bike_total s1 o1) as (s2 & o2 & l2 & E2 & A2 & L2).
  destruct (analyze_static_total s2 o2) as (s3 & o3 & l3 & E3 & A3 & L3).
  exists s3, o3, l1, l2, l3.
  rewrite E1. cbn [bind]. rewrite E2. cbn [bind]. rewrite E3.
  split; [reflexivity|]. split; [|auto].
  eapply appended_trans; [exact A1|]. eapply appended_trans; eassumption.
Qed.

(** ** The verdict *)



(** ** Claims on the table cleaner *)

(** C5.  In every table that [_load_and_clean] returns, each row holds in
    the designated column a number, not NaN, that is strictly greater than
    10; and the rows are, in their original order, rows of the table read
    from the selected file with the designated cell coerced. *)
Theorem load_and_clean_invariant (self : RehabRiskAgent) (kw : string)
    (c : nat) (df : DataFrame) :
  _load_and_clean self kw c = Some df ->
  Forall (fun r => exists x, nth_error r c = Some (Num x)
                             /\ is_nan x = false
                             /\ Float.ltb (of_Z 10) x = true)
         (rows df)
  /\ exists f df0,
       latest_file self kw = Some f
       /\ read_csv (lines f) = Ok df0
       /\ subsequence (rows df) (map (coerce_row c) (rows df0)).
Proof.
  intros H. apply load_and_clean_inv in H.
  destruct H as (f & df0 & Hf & Hread & Hc & ->). simpl. split.
  - apply Forall_forall. intros r Hr.
    apply filter_In in Hr. destruct Hr as [Hin Hk].
    apply in_map_iff in Hin. destruct Hin as [r0 [<- _]].
    now apply kept_row_numeric.
  - exists f, df0. split; [exact Hf|]. split; [exact Hread|].
    apply filter_subsequence.
Qed.

Lemma load_and_clean_invariant_witness :
  let df := {| shape1 := 3; rows := map row3 [200; 200; 200; 200; 200]%Z |} in
  _load_and_clean (agent_on [speak_5_200]) "speak" 2 = Some df
  /\ Forall (fun r => exists x, nth_error r 2 = Some (Num x)
                                /\ is_nan x = false
                                /\ Float.ltb (of_Z 10) x = true)
            (rows df).
Proof.
  split; [reflexivity|].
  apply (load_and_clean_invariant (agent_on [speak_5_200]) "speak" 2).
  reflexivity.
Defined.

(** C8.  Cleaning is idempotent: when the cleaning step (coerce the
    designated column to numbers, keep the rows whose value is strictly
    greater than 10) turns a table into [df'], the same step applied to
    [df'] returns [df']. *)
Theorem clean_idempotent (df df' : DataFrame) (c : nat) :
  clean df c = Ok (Some df') -> clean df' c = Ok (Some df').
Proof.
  intros H. destruct (Nat.ltb_spec c (shape1 df)) as [Hc|Hc].
  - rewrite clean_eq in H by assumption. injection H as <-.
    rewrite clean_eq by exact Hc. simpl.
    now rewrite cleaned_rows_idem.
  - rewrite clean_short in H by assumption. discriminate.
Qed.

Lemma clean_idempotent_witness :
  let df := {| shape1 := 3;
               rows := [row3 5; [zero; zero; Str "200.5"];
                        [zero; zero; Str "n/a"]; row3 300] |} in
  let df' := {| shape1 := 3;
                rows := [[zero; zero; Num (Fin (401 # 2))]; row3 300] |} in
  clean df 2 = Ok (Some df') /\ clean df' 2 = Ok (Some df').
Proof.
  split; [reflexivity|].
  apply (clean_idempotent
           {| shape1 := 3;
              rows := [row3 5; [zero; zero; Str "200.5"];
                       [zero; zero; Str "n/a"]; row3 300] |}).
  reflexivity.
Defined.

(** ** Claims on degenerate tables *)

Lemma load_and_clean_appended (self self' : RehabRiskAgent) (l : list string)
    (kw : string) (c : nat) :
  appended self self' l ->
  _load_and_clean self' kw c = _load_and_clean self kw c.
Proof.
  intros (Hp & Hd & _ & _). unfold _load_and_clean, latest_file.
  now rewrite Hp, Hd.
Qed.





(** C7.  When the cleaned static table has no fifth column, the stability
    block computes nothing: it prints the warning about the missing Y-axis
    column and returns the agent unchanged.  The whole run then completes
    with that warning as its last line and with no stability label: the
    risks are the earlier ones followed by at most a respiratory and an
    exertion label. *)
Theorem static_missing_fifth_column (self : RehabRiskAgent) (out : list string)
    (df : DataFrame) :
  _load_and_clean self "static_level1" 3 = Some df ->
  (shape1 df <= 4)%nat ->
  analyze_static (self, out) =
    Ok (self, print out "   Warning: Static data missing Y-axis column")
  /\ exists self' out' resp pem,
       analyze (self, out) =
         Ok (self', print out' "   Warning: Static data missing Y-axis column")
       /\ risks self' = (risks self ++ resp ++ pem)%list
       /\ label_opt "Respiratory Risk (" resp
       /\ label_opt "PEM Risk (" pem.
Proof.
  intros Hload Hshape. split.
  - now apply (analyze_static_short self out df).
  - unfold analyze.
    destruct (analyze_speak_total self
      (print (print (print out (newline ++ "Analyzing Folder: " ++ dir_name (data_dir self)))
                    ("Identified Patient ID: " ++ patient_id self))
             (str_repeat "-" 40)))
      as (s1 & o1 & l1 & E1 & A1 & L1).
    destruct (analyze_bike_total s1 o1) as (s2 & o2 & l2 & E2 & A2 & L2).
    pose proof (appended_trans _ _ _ _ _ A1 A2) as A12.
    rewrite E1. cbn [bind]. rewrite E2. cbn [bind].
    rewrite <- (load_and_clean_appended _ _ _ "static_level1" 3 A12) in Hload.
    rewrite (analyze_static_short _ _ _ Hload Hshape).
    exists s2, o2, l1, l2. split; [reflexivity|].
    destruct A12 as (_ & _ & _ & ->). auto.
Qed.

Lemma static_missing_fifth_column_witness :
  let self := agent_on [static_4col] in
  _load_and_clean self "static_level1" 3
    = Some {| shape1 := 4; rows := lines static_4col |}
  /\ analyze_static (self, []) =
       Ok (self, ["   Warning: Static data missing Y-axis column"]).
Proof.
  split; [reflexivity|].
  apply (static_missing_fifth_column (agent_on [static_4col]) []
           {| shape1 := 4; rows := lines static_4col |}).
  - reflexivity.
  - simpl. lia.
Defined.

(** ** Order on finite values *)

Lemma ltb_Fin (a b : Q) : Float.ltb (Fin a) (Fin b) = true <-> (a < b)%Q.
Proof.
  simpl. rewrite Qlt_alt. destruct (a ?= b)%Q; split; congruence.
Qed.

Lemma ltb_Fin_false (a b : Q) : Float.ltb (Fin a) (Fin b) = false <-> (b <= a)%Q.
Proof.
  rewrite <- Bool.not_true_iff_false, ltb_Fin. split.
  - apply Qnot_lt_le.
  - apply Qle_not_lt.
Qed.

Lemma leb_Fin (a b : Q) : Float.leb (Fin a) (Fin b) = true <-> (a <= b)%Q.
Proof.
  simpl. rewrite Qle_alt. destruct (a ?= b)%Q; split; congruence.
Qed.

Lemma Qneg_false (q : Q) : (0 <= q)%Q -> Float.Qneg q = false.
Proof.
  intros H. unfold Float.Qneg. destruct (q ?= 0)%Q eqn:E; try reflexivity.
  apply Qlt_alt in E. exfalso. apply (Qlt_not_le _ _ E H).
Qed.

Lemma Qzero_false (q : Q) : (0 < q)%Q -> Float.Qzero q = false.
Proof.
  intros H. unfold Float.Qzero. destruct (q ?= 0)%Q eqn:E; try reflexivity.
  apply Qeq_alt in E. rewrite E in H. exfalso. apply (Qlt_irrefl _ H).
Qed.

(** Below a positive baseline the workload delta is never positive. *)
Lemma delta_pct_not_positive (cfg : RiskConfig) (avg : float) :
  Float.ltb (of_Z 0) (BASELINE_WORKLOAD cfg) = true ->
  Float.leb avg (BASELINE_WORKLOAD cfg) = true ->
  Float.gtb (delta_pct cfg avg) (of_Z 0) = false.
Proof.
  unfold delta_pct, Float.gtb.
  destruct (BASELINE_WORKLOAD cfg) as [|s|b]; try discriminate.
  - destruct s; [discriminate|]. intros _.
    destruct avg as [|[]|a]; try discriminate; reflexivity.
  - intros Hb Ha. apply ltb_Fin in Hb.
    destruct avg as [|s|a]; try discriminate.
    + destruct s; [|discriminate]. simpl.
      rewrite (Qneg_false b) by now apply Qlt_le_weak. reflexivity.
    + apply leb_Fin in Ha. unfold Float.sub, Float.neg, Float.add, Float.div.
      rewrite (Qzero_false b Hb). unfold Float.mul, of_Z.
      apply ltb_Fin_false. rewrite !Qred_correct.
      assert (H : ((a + - b) / b <= 0)%Q).
      { apply Qle_shift_div_r; [exact Hb|]. lra. }
      lra.
Qed.

Lemma not_above_tolerance (delta tol : float) :
  Float.gtb delta (of_Z 0) = false ->
  Float.leb (of_Z 0) tol = true ->
  Float.gtb delta tol = false.
Proof.
  unfold Float.gtb.
  destruct delta as [|s|d]; [intros; apply ltb_nan_r | |].
  - destruct s; [|discriminate]. intros _ _. destruct tol as [|[]|t]; reflexivity.
  - intros Hd Ht. apply ltb_Fin_false in Hd.
    destruct tol as [|s|t]; try reflexivity.
    + destruct s; [discriminate | reflexivity].
    + apply leb_Fin in Ht. apply ltb_Fin_false.
      unfold of_Z in *. lra.
Qed.

(** ** The exertion metric *)

(** C6.  The exertion risk is one-sided.  On a cleaned bike table the block
    appends the "PEM Risk" label when the workload delta strictly exceeds
    [EXERTION_TOLERANCE_PCT] and leaves the agent unchanged otherwise.  With
    a positive baseline and a tolerance that is not negative (the defaults
    are 1400 and 50), a column mean at or below the baseline gives a delta
    that is not positive and no label, however low the mean is. *)
Theorem exertion_one_sided (self : RehabRiskAgent) (out : list string)
    (df : DataFrame) :
  _load_and_clean self "bike_level1" 2 = Some df ->
  exists xs,
    iloc df 2 = Ok (map Num xs)
    /\ let delta := delta_pct (config self) (nanmean xs) in
       let out' := print out ("   Bike Load Variation: " ++ format_f 1 delta ++ "%") in
       ((Float.gtb delta (EXERTION_TOLERANCE_PCT (config self)) = true
         /\ analyze_bike (self, out) =
              Ok (append_risk self ("PEM Risk (" ++ format_f 0 delta ++ "%)"), out'))
        \/ (Float.gtb delta (EXERTION_TOLERANCE_PCT (config self)) = false
            /\ analyze_bike (self, out) = Ok (self, out')))
       /\ (Float.ltb (of_Z 0) (BASELINE_WORKLOAD (config self)) = true ->
           Float.leb (of_Z 0) (EXERTION_TOLERANCE_PCT (config self)) = true ->
           Float.leb (nanmean xs) (BASELINE_WORKLOAD (config self)) = true ->
           Float.gtb delta (of_Z 0) = false
           /\ analyze_bike (self, out) = Ok (self, out')).
Proof.
  intros Hload.
  destruct (load_and_clean_column _ _ _ _ Hload) as (xs & Hcol & _ & _).
  exists xs. split; [exact Hcol|]. cbv zeta.
  pose proof (analyze_bike_eq _ out _ _ Hload Hcol) as E. cbv zeta in E.
  split.
  - destruct (Float.gtb _ _) eqn:G in E; [left | right]; auto.
  - intros HB HT Hmean.
    pose proof (delta_pct_not_positive _ _ HB Hmean) as H0.
    split; [exact H0|].
    now rewrite (not_above_tolerance _ _ H0 HT) in E.
Qed.

Lemma exertion_one_sided_witness :
  let self := agent_on [bike_low] in
  _load_and_clean self "bike_level1" 2
    = Some {| shape1 := 3; rows := lines bike_low |}
  /\ nanmean (map of_Z [20; 30; 40]%Z) = of_Z 30
  /\ analyze_bike (self, []) = Ok (self, ["   Bike Load Variation: -97.9%"]).
Proof.
  split; [reflexivity|]. split; [reflexivity|].
  destruct (exertion_one_sided (agent_on [bike_low]) []
              {| shape1 := 3; rows := lines bike_low |} eq_refl)
    as (xs & Hcol & _ & Hlow).
  injection Hcol as Hcol.
  destruct xs as [|x1 [|x2 [|x3 [|x4 xs]]]]; try discriminate Hcol.
  injection Hcol as <- <- <-.
  apply Hlow; reflexivity.
Defined.

(** ** The standard deviation *)






Lemma of_nat_positive (n : nat) : (0 < n)%nat -> (0 < inject_Z (Z.of_nat n))%Q.
Proof.
  intros H. change 0%Q with (inject_Z 0). rewrite <- Zlt_Qlt. lia.
Qed.


(** ** The stability metric *)



(** ** Undefined metrics *)








(** ** The respiratory example *)

(** C1 as stated fails: the five rows with value 5 do not pass the noise
    floor, the pause ratio is taken over the five rows left and is 0, and no
    label is appended. *)
Lemma respiratory_example_counterexample :
  let self := agent_on [speak_5_200] in
  _load_and_clean self "speak" 2
    = Some {| shape1 := 3; rows := map row3 [200; 200; 200; 200; 200]%Z |}
  /\ pause_ratio default_config (map of_Z [200; 200; 200; 200; 200]%Z) 5 = of_Z 0
  /\ analyze_speak (self, []) = Ok (self, ["   Speak Pause Ratio: 0.0%"])
  /\ risks self = [].
Proof. repeat split; reflexivity. Qed.

(** C1, as the code has it.  The ratio formula on the ten values
    5,5,5,5,5,200,200,200,200,200 with threshold 100 gives 0.5, but the
    cleaner removes the five rows at 5 before the ratio is taken, so that
    table yields ratio 0 and no label.  With the quiet samples above the
    noise floor, at 50, the respiratory block yields 0.5, which exceeds the
    limit 0.3, and appends "Respiratory Risk (50.0%)". *)
Theorem respiratory_example :
  pause_ratio default_config
    (map of_Z [5; 5; 5; 5; 5; 200; 200; 200; 200; 200]%Z) 10 = Fin (1 # 2)
  /\ analyze_speak (agent_on [speak_5_200], []) =
       Ok (agent_on [speak_5_200], ["   Speak Pause Ratio: 0.0%"])
  /\ _load_and_clean (agent_on [speak_50_200]) "speak" 2
       = Some {| shape1 := 3; rows := lines speak_50_200 |}
  /\ pause_ratio default_config
       (map of_Z [50; 50; 50; 50; 50; 200; 200; 200; 200; 200]%Z) 10 = Fin (1 # 2)
  /\ Float.gtb (Fin (1 # 2)) (SILENCE_RATIO_LIMIT default_config) = true
  /\ analyze_speak (agent_on [speak_50_200], []) =
       Ok (append_risk (agent_on [speak_50_200]) "Respiratory Risk (50.0%)",
           ["   Speak Pause Ratio: 50.0%"]).
Proof. repeat split; reflexivity. Qed.

(** ** The dataset locator *)

Lemma translate_app (a b : string) :
  translate (a ++ b) = (translate a ++ translate b)%list.
Proof. induction a as [|c a IH]; simpl; [reflexivity | now rewrite IH]. Qed.

Lemma translate_plain (s : string) : plain s = true -> translate s = literal s.
Proof.
  induction s as [|c s IH]; simpl; [reflexivity|].
  intros H. apply andb_prop in H. destruct H as [H Hs].
  apply andb_prop in H. destruct H as [H H3].
  apply andb_prop in H. destruct H as [H1 H2].
  apply negb_true_iff in H1, H2. rewrite H1, H2, IH by assumption. reflexivity.
Qed.

Lemma fnmatch_nil (s : string) : fnmatch [] s = true <-> s = "".
Proof. destruct s; simpl; split; congruence. Qed.

Lemma fnmatch_star_unfold (p : list token) (s : string) :
  fnmatch (Star :: p) s =
  fnmatch p s
  || match s with
     | EmptyString => false
     | String _ s' => fnmatch (Star :: p) s'
     end.
Proof. destruct s; reflexivity. Qed.

Lemma fnmatch_star (p : list token) (s : string) :
  fnmatch (Star :: p) s = true <->
  exists a b, s = a ++ b /\ fnmatch p b = true.
Proof.
  induction s as [|c s IH]; rewrite fnmatch_star_unfold.
  - rewrite orb_false_r. split.
    + intros H. now exists "", "".
    + intros (a & b & E & H). destruct a; [|discriminate]. simpl in E. now subst b.
  - rewrite orb_true_iff, IH. split.
    + intros [H|(a & b & -> & H)].
      * now exists "", (String c s).
      * now exists (String c a), b.
    + intros (a & b & E & H). destruct a as [|c' a]; simpl in E.
      * left. now subst b.
      * right. injection E as _ ->. now exists a, b.
Qed.

Lemma fnmatch_literal (l : string) (p : list token) (s : string) :
  fnmatch (literal l ++ p) s = true <->
  exists b, s = l ++ b /\ fnmatch p b = true.
Proof.
  revert s; induction l as [|c l IH]; intros s; simpl.
  - split; [intros H; now exists s | now intros (b & -> & H)].
  - destruct s as [|d s].
    + split; [discriminate | intros (b & E & _); discriminate].
    + rewrite andb_true_iff, IH. split.
      * intros [Hc (b & -> & H)]. apply Ascii.eqb_eq in Hc. subst d. now exists b.
      * intros (b & E & H). injection E as -> ->. split; [apply Ascii.eqb_refl|].
        now exists b.
Qed.


Lemma max_by_key_spec {A : Type} (key : A -> Q) (rest : list A) (best : A) :
  In (max_by_key key best rest) (best :: rest)
  /\ (key best <= key (max_by_key key best rest))%Q
  /\ Forall (fun g => (key g <= key (max_by_key key best rest))%Q) rest.
Proof.
  revert best; induction rest as [|a rest IH]; intros best; simpl.
  - split; [now left|]. split; [apply Qle_refl | constructor].
  - set (best' := match (key best ?= key a)%Q with Lt => a | _ => best end).
    destruct (IH best') as (Hin & Hle & Hall).
    assert (Hb : (key best <= key best')%Q /\ (key a <= key best')%Q
                 /\ (best' = best \/ best' = a)).
    { unfold best'. destruct (key best ?= key a)%Q eqn:E.
      - apply Qeq_alt in E. rewrite E. repeat split; try apply Qle_refl. now left.
      - apply Qlt_alt in E. repeat split;
          [now apply Qlt_le_weak | apply Qle_refl | now right].
      - apply Qgt_alt in E. repeat split;
          [apply Qle_refl | now apply Qlt_le_weak | now left]. }
    destruct Hb as (Hb1 & Hb2 & Hb3). split; [|split].
    + destruct Hin as [Hin|Hin].
      * destruct Hb3 as [Hb3|Hb3]; rewrite <- Hin, Hb3; auto.
      * auto.
    + eapply Qle_trans; eassumption.
    + constructor; [eapply Qle_trans; eassumption | exact Hall].
Qed.





(** * Further properties of the code *)

(** ** The locator: fallback, recency and ties *)

Lemma fnmatch_app (p q : list token) (s : string) :
  fnmatch (p ++ q)%list s = true <->
  exists s1 s2, s = s1 ++ s2 /\ fnmatch p s1 = true /\ fnmatch q s2 = true.
Proof.
  revert s; induction p as [|t p IH]; intros s.
  - simpl. split.
    + intros H. now exists "", s.
    + intros (s1 & s2 & -> & H1 & H2). apply fnmatch_nil in H1. now subst s1.
  - destruct t.
    + change ((Star :: p) ++ q)%list with (Star :: (p ++ q))%list.
      rewrite fnmatch_star. split.
      * intros (a & b & -> & H). apply IH in H.
        destruct H as (b1 & b2 & -> & H1 & H2).
        exists (a ++ b1), b2. rewrite append_assoc. split; [reflexivity|].
        split; [|exact H2]. apply fnmatch_star. now exists a, b1.
      * intros (s1 & s2 & -> & H1 & H2). apply fnmatch_star in H1.
        destruct H1 as (a & b1 & -> & H1).
        exists a, (b1 ++ s2). rewrite append_assoc. split; [reflexivity|].
        apply IH. now exists b1, s2.
    + destruct s as [|c s]; simpl.
      * split; [discriminate|]. intros (s1 & s2 & E & H1 & _).
        destruct s1; [discriminate H1 | discriminate E].
      * rewrite IH. split.
        -- intros (s1 & s2 & -> & H1 & H2). now exists (String c s1), s2.
        -- intros (s1 & s2 & E & H1 & H2). destruct s1 as [|d s1]; [discriminate H1|].
           injection E as -> ->. now exists s1, s2.
    + destruct s as [|d s]; simpl.
      * split; [discriminate|]. intros (s1 & s2 & E & H1 & _).
        destruct s1; [discriminate H1 | discriminate E].
      * rewrite andb_true_iff, IH. split.
        -- intros [Hc (s1 & s2 & -> & H1 & H2)]. exists (String d s1), s2.
           simpl. rewrite Hc. auto.
        -- intros (s1 & s2 & E & H1 & H2). destruct s1 as [|d' s1]; [discriminate H1|].
           injection E as -> ->. simpl in H1. apply andb_prop in H1.
           destruct H1 as [Hc H1]. split; [exact Hc|]. now exists s1, s2.
Qed.

Lemma fnmatch_star_prefix (p : list token) (a s : string) :
  fnmatch (Star :: p) s = true -> fnmatch (Star :: p) (a ++ s) = true.
Proof.
  rewrite !fnmatch_star. intros (x & y & -> & H).
  exists (a ++ x), y. now rewrite append_assoc.
Qed.

Lemma specific_implies_keyword (pid kw n : string) :
  fnmatch (translate (specific_pattern pid kw)) n = true ->
  fnmatch (translate (keyword_pattern kw)) n = true.
Proof.
  change (specific_pattern pid kw) with ("*" ++ (pid ++ keyword_pattern kw)).
  rewrite (translate_app "*"), (translate_app pid).
  change (translate "*") with [Star]. cbn [app].
  change (translate (keyword_pattern kw))
    with (Star :: translate (kw ++ "*.csv")).
  rewrite fnmatch_star. intros (a & b & -> & H).
  apply fnmatch_app in H. destruct H as (b1 & b2 & -> & _ & H).
  apply fnmatch_star_prefix. now apply fnmatch_star_prefix.
Qed.

(** The names that the keyword-only pattern matches. *)
Lemma fnmatch_keyword (kw n : string) :
  plain kw = true ->
  fnmatch (translate (keyword_pattern kw)) n = true <->
  exists a c, n = a ++ kw ++ c ++ ".csv".
Proof.
  intros Hk. unfold keyword_pattern.
  change ("*" ++ kw ++ "*.csv") with ("*" ++ (kw ++ "*.csv")).
  rewrite (translate_app "*"), (translate_app kw), (translate_plain kw Hk).
  change (translate "*") with [Star].
  change (translate "*.csv") with (Star :: (literal ".csv" ++ []))%list.
  cbn [app]. rewrite fnmatch_star. split.
  - intros (a & s1 & -> & H). apply fnmatch_literal in H.
    destruct H as (s2 & -> & H). apply fnmatch_star in H.
    destruct H as (c & s3 & -> & H). apply fnmatch_literal in H.
    destruct H as (s4 & -> & H). apply fnmatch_nil in H. subst s4.
    now exists a, c.
  - intros (a & c & ->). exists a, (kw ++ c ++ ".csv").
    split; [reflexivity|]. apply fnmatch_literal.
    exists (c ++ ".csv"). split; [reflexivity|]. apply fnmatch_star.
    exists c, ".csv". split; [reflexivity|]. apply fnmatch_literal.
    exists "". split; reflexivity.
Qed.

(** Python's [max] with a key: the result is the first element that no
    other exceeds. *)
Lemma max_by_key_first {A : Type} (key : A -> Q) (rest : list A) (best : A) :
  exists pre post,
    (best :: rest = pre ++ max_by_key key best rest :: post)%list
    /\ Forall (fun g => (key g < key (max_by_key key best rest))%Q) pre
    /\ Forall (fun g => (key g <= key (max_by_key key best rest))%Q) post.
Proof.
  revert best; induction rest as [|a rest IH]; intros best.
  - exists [], []. simpl. auto.
  - simpl. destruct (key best ?= key a)%Q eqn:C.
    + apply Qeq_alt in C.
      destruct (IH best) as (pre & post & E & Hpre & Hpost).
      destruct (max_by_key_spec key rest best) as (_ & Hle & Hall).
      remember (max_by_key key best rest) as m eqn:Hm. clear Hm IH.
      destruct pre as [|x pre]; simpl in E; injection E as E1 E2.
      * exists [], (a :: rest). simpl. rewrite <- E1.
        split; [reflexivity|]. split; [constructor|].
        constructor; [rewrite C; apply Qle_refl | now rewrite E1].
      * exists (best :: a :: pre), post. simpl. rewrite E2.
        split; [reflexivity|]. split; [|exact Hpost].
        inversion Hpre; subst.
        constructor; [assumption|]. constructor; [now rewrite <- C | assumption].
    + apply Qlt_alt in C.
      destruct (IH a) as (pre & post & E & Hpre & Hpost).
      destruct (max_by_key_spec key rest a) as (_ & Hle & _).
      exists (best :: pre), post. simpl. rewrite E. split; [reflexivity|].
      split; [|exact Hpost]. constructor; [|exact Hpre].
      eapply Qlt_le_trans; eassumption.
    + apply Qgt_alt in C.
      destruct (IH best) as (pre & post & E & Hpre & Hpost).
      destruct (max_by_key_spec key rest best) as (_ & Hle & Hall).
      remember (max_by_key key best rest) as m eqn:Hm. clear Hm IH.
      destruct pre as [|x pre]; simpl in E; injection E as E1 E2.
      * exists [], (a :: rest). simpl. rewrite <- E1.
        split; [reflexivity|]. split; [constructor|].
        constructor; [now apply Qlt_le_weak | now rewrite E1].
      * exists (best :: a :: pre), post. simpl. rewrite E2.
        split; [reflexivity|]. split; [|exact Hpost].
        inversion Hpre; subst.
        constructor; [assumption|]. constructor; [|assumption].
        eapply Qlt_trans; eassumption.
Qed.

(** X1.  The file that the locator selects is the first, in listing order,
    of the most recently modified files among the candidates: every
    candidate before it is strictly older, none after it is newer.  The
    candidates are the matches of the patient-specific pattern, or those of
    the keyword-only pattern when the first has none; without candidates no
    file is selected. *)
Theorem latest_file_first_newest (self : RehabRiskAgent) (kw : string) :
  let specific := glob (data_dir self) (specific_pattern (patient_id self) kw) in
  let candidates :=
    match specific with
    | [] => glob (data_dir self) (keyword_pattern kw)
    | _ => specific
    end in
  (candidates = [] /\ latest_file self kw = None)
  \/ exists f pre post,
       latest_file self kw = Some f
       /\ candidates = (pre ++ f :: post)%list
       /\ Forall (fun g => (st_mtime g < st_mtime f)%Q) pre
       /\ Forall (fun g => (st_mtime g <= st_mtime f)%Q) post.
Proof.
  intros specific candidates. unfold latest_file. fold specific. fold candidates.
  destruct candidates as [|f fs]; [left; now split|]. right.
  destruct (max_by_key_first st_mtime fs f) as (pre & post & E & Hpre & Hpost).
  exists (max_by_key st_mtime f fs), pre, post. auto.
Qed.


(** X3.  For a keyword without wildcard characters, the keyword-only
    pattern matches exactly the entries, not hidden, whose name holds the
    keyword and ends in [.csv]; what follows the keyword is not constrained,
    so the pattern for [bike_level1] also takes [bike_level10]. *)
Theorem keyword_pattern_matches (dir : Path) (kw : string) (f : file) :
  plain kw = true ->
  In f (glob dir (keyword_pattern kw)) <->
  In f (listing dir)
  /\ ishidden (name f) = false
  /\ exists a c, name f = a ++ kw ++ c ++ ".csv".
Proof.
  intros Hk. unfold glob. rewrite filter_In.
  change (ishidden (keyword_pattern kw)) with false.
  rewrite orb_false_l, andb_true_iff, negb_true_iff, (fnmatch_keyword _ _ Hk).
  tauto.
Qed.

Lemma keyword_pattern_matches_witness :
  let f := {| name := "123_bike_level10.csv"; st_mtime := 1; lines := [] |} in
  plain "bike_level1" = true
  /\ In f (glob (session [f]) (keyword_pattern "bike_level1")).
Proof.
  split; [reflexivity|].
  apply (keyword_pattern_matches
           (session [{| name := "123_bike_level10.csv"; st_mtime := 1; lines := [] |}])
           "bike_level1" _ eq_refl).
  split; [now left|]. split; [reflexivity|].
  exists "123_", "0". reflexivity.
Defined.

(** ** The cleaner: when it gives nothing, and what it leaves alone *)


Lemma length_set_nth (i : nat) (c : cell) (r : list cell) :
  List.length (set_nth i c r) = List.length r.
Proof.
  revert i; induction r as [|c' r IH]; intros [|i]; simpl; try reflexivity.
  now rewrite IH.
Qed.

(** X5.  Cleaning keeps the number of columns, never adds a row, and
    changes in a retained row the designated cell only: every retained row
    comes from a row of the table given, of the same length and with the
    same cells in all other columns. *)
Theorem clean_other_columns (df df' : DataFrame) (c : nat) :
  clean df c = Ok (Some df') ->
  shape1 df' = shape1 df
  /\ (len df' <= len df)%nat
  /\ Forall (fun r' => exists r,
               In r (rows df)
               /\ List.length r' = List.length r
               /\ forall j, j <> c -> nth j r' (Num NaN) = nth j r (Num NaN))
            (rows df').
Proof.
  intros H. destruct (Nat.ltb_spec c (shape1 df)) as [Hc|Hc].
  - rewrite clean_eq in H by assumption. injection H as <-. simpl.
    split; [reflexivity|]. split.
    + unfold len. simpl.
      etransitivity; [apply filter_length_le|]. now rewrite length_map.
    + apply Forall_forall. intros r' Hr'.
      apply filter_In in Hr'. destruct Hr' as [Hin _].
      apply in_map_iff in Hin. destruct Hin as (r & <- & Hin).
      exists r. split; [exact Hin|]. split; [apply length_set_nth|].
      intros j Hj. apply nth_coerce_row_other. congruence.
  - rewrite clean_short in H by assumption. discriminate.
Qed.

Lemma clean_other_columns_witness :
  let df := {| shape1 := 3;
               rows := [[Str "a"; Num (of_Z 1); Str "20"];
                        [Str "b"; Num (of_Z 2); Str "x"]] |} in
  let df' := {| shape1 := 3;
                rows := [[Str "a"; Num (of_Z 1); Num (of_Z 20)]] |} in
  clean df 2 = Ok (Some df')
  /\ shape1 df' = shape1 df
  /\ (len df' <= len df)%nat.
Proof.
  split; [reflexivity|].
  destruct (clean_other_columns
              {| shape1 := 3;
                 rows := [[Str "a"; Num (of_Z 1); Str "20"];
                          [Str "b"; Num (of_Z 2); Str "x"]] |}
              {| shape1 := 3;
                 rows := [[Str "a"; Num (of_Z 1); Num (of_Z 20)]] |}
              2 eq_refl) as (H1 & H2 & _).
  split; [exact H1 | exact H2].
Defined.

(** ** The respiratory metric: range and the noise floor *)

Lemma mask_sum_le (mask : list bool) : (mask_sum mask <= List.length mask)%nat.
Proof. apply filter_length_le. Qed.

Lemma div_of_nat (k n : nat) :
  (0 < n)%nat ->
  Float.div (of_nat k) (of_nat n)
  = Fin (Qred (inject_Z (Z.of_nat k) / inject_Z (Z.of_nat n))).
Proof.
  intros Hn. unfold of_nat, of_Z, Float.div.
  change (Z.of_nat n # 1) with (inject_Z (Z.of_nat n)).
  now rewrite (Qzero_false _ (of_nat_positive n Hn)).
Qed.

Lemma ratio_bounds (k n : nat) :
  (0 < n)%nat -> (k <= n)%nat ->
  (0 <= inject_Z (Z.of_nat k) / inject_Z (Z.of_nat n) <= 1)%Q.
Proof.
  intros Hn Hk. pose proof (of_nat_positive n Hn) as Hpos. split.
  - apply Qle_shift_div_l; [exact Hpos|]. rewrite Qmult_0_l.
    change 0%Q with (inject_Z 0). rewrite <- Zle_Qle. lia.
  - apply Qle_shift_div_r; [exact Hpos|]. rewrite Qmult_1_l.
    rewrite <- Zle_Qle. lia.
Qed.

(** X6.  On a cleaned speak table with at least one row the pause ratio is
    a finite number between 0 and 1; with a ratio limit of 1 or more the
    respiratory label is therefore never appended. *)
Theorem pause_ratio_bounds (self : RehabRiskAgent) (out : list string)
    (df : DataFrame) :
  _load_and_clean self "speak" 2 = Some df ->
  rows df <> [] ->
  exists xs q,
    iloc df 2 = Ok (map Num xs)
    /\ pause_ratio (config self) xs (len df) = Fin q
    /\ (0 <= q <= 1)%Q
    /\ (Float.leb (of_Z 1) (SILENCE_RATIO_LIMIT (config self)) = true ->
        analyze_speak (self, out) =
          Ok (self, print out ("   Speak Pause Ratio: " ++ format_pct 1 (Fin q)))).
Proof.
  intros Hload Hrows.
  destruct (load_and_clean_column _ _ _ _ Hload) as (xs & Hcol & _ & Hlen).
  assert (Hn : (0 < len df)%nat).
  { unfold len. destruct (rows df); [contradiction | simpl; lia]. }
  set (k := mask_sum (map (fun v => Float.ltb v (SILENCE_THRESHOLD (config self)))
                          (map Float.abs xs))).
  assert (Hk : (k <= len df)%nat).
  { unfold k. etransitivity; [apply mask_sum_le|]. now rewrite !length_map, Hlen. }
  exists xs, (Qred (inject_Z (Z.of_nat k) / inject_Z (Z.of_nat (len df)))).
  assert (E : pause_ratio (config self) xs (len df)
              = Fin (Qred (inject_Z (Z.of_nat k) / inject_Z (Z.of_nat (len df))))).
  { unfold pause_ratio. fold k. now apply div_of_nat. }
  pose proof (ratio_bounds k (len df) Hn Hk) as [B0 B1].
  split; [exact Hcol|]. split; [exact E|]. split.
  - rewrite Qred_correct. now split.
  - intros Hlim. rewrite (analyze_speak_eq _ _ _ _ Hload Hcol). cbv zeta.
    rewrite E.
    assert (G : Float.gtb
                  (Fin (Qred (inject_Z (Z.of_nat k) / inject_Z (Z.of_nat (len df)))))
                  (SILENCE_RATIO_LIMIT (config self)) = false).
    { unfold Float.gtb.
      destruct (SILENCE_RATIO_LIMIT (config self)) as [|s|l]; try discriminate.
      - destruct s; [discriminate | reflexivity].
      - apply leb_Fin in Hlim. apply ltb_Fin_false. rewrite Qred_correct.
        unfold of_Z in Hlim. change (1 # 1) with 1%Q in Hlim.
        eapply Qle_trans; eassumption. }
    now rewrite G.
Qed.

Lemma pause_ratio_bounds_witness :
  let self := agent_on [speak_50_200] in
  _load_and_clean self "speak" 2 = Some {| shape1 := 3; rows := lines speak_50_200 |}
  /\ exists xs q,
       iloc {| shape1 := 3; rows := lines speak_50_200 |} 2 = Ok (map Num xs)
       /\ pause_ratio default_config xs 10 = Fin q
       /\ (0 <= q <= 1)%Q.
Proof.
  split; [reflexivity|].
  destruct (pause_ratio_bounds (agent_on [speak_50_200]) []
              {| shape1 := 3; rows := lines speak_50_200 |} eq_refl)
    as (xs & q & H1 & H2 & H3 & _); [discriminate|].
  exists xs, q. auto.
Defined.

Lemma mask_sum_all_false {A : Type} (f : A -> bool) (l : list A) :
  Forall (fun a => f a = false) l -> mask_sum (map f l) = 0%nat.
Proof.
  induction 1 as [|a l Ha _ IH]; [reflexivity|].
  unfold mask_sum in *. simpl. now rewrite Ha.
Qed.

(** A value above the noise floor is not below a threshold of 10 or less. *)
Lemma above_floor_not_silent (x t : float) :
  Float.gtb x (of_Z 10) = true ->
  Float.leb t (of_Z 10) = true ->
  Float.ltb (Float.abs x) t = false.
Proof.
  unfold Float.gtb. destruct x as [|s|q]; try discriminate.
  - intros _ _. destruct t as [|[]|]; reflexivity.
  - intros Hq Ht. apply ltb_Fin in Hq. unfold of_Z in *.
    destruct t as [|s|t]; try discriminate.
    + destruct s; [reflexivity | discriminate].
    + apply leb_Fin in Ht. apply ltb_Fin_false. rewrite Qred_correct.
      rewrite Qabs_pos by lra. lra.
Qed.

(** X7.  With a silence threshold of 10 or less no retained sample counts
    as a pause, since every retained sample exceeds 10; with a ratio limit
    that is not negative the respiratory label is then never appended. *)
Theorem low_threshold_no_pause (self : RehabRiskAgent) (out : list string)
    (df : DataFrame) :
  _load_and_clean self "speak" 2 = Some df ->
  Float.leb (SILENCE_THRESHOLD (config self)) (of_Z 10) = true ->
  Float.leb (of_Z 0) (SILENCE_RATIO_LIMIT (config self)) = true ->
  exists xs,
    iloc df 2 = Ok (map Num xs)
    /\ Forall (fun x => Float.ltb (Float.abs x) (SILENCE_THRESHOLD (config self)) = false) xs
    /\ exists out', analyze_speak (self, out) = Ok (self, out').
Proof.
  intros Hload Hthr Hlim.
  destruct (load_and_clean_column _ _ _ _ Hload) as (xs & Hcol & Hgt & Hlen).
  exists xs. split; [exact Hcol|].
  assert (Hall : Forall (fun x => Float.ltb (Float.abs x)
                                    (SILENCE_THRESHOLD (config self)) = false) xs).
  { eapply Forall_impl; [|exact Hgt]. intros x Hx.
    now apply above_floor_not_silent. }
  split; [exact Hall|].
  rewrite (analyze_speak_eq _ _ _ _ Hload Hcol). cbv zeta.
  unfold pause_ratio. rewrite map_map, (mask_sum_all_false _ _ Hall).
  assert (G : Float.gtb (Float.div (of_nat 0) (of_nat (len df)))
                        (SILENCE_RATIO_LIMIT (config self)) = false).
  { apply not_above_tolerance; [|exact Hlim].
    destruct (len df) as [|n]; [reflexivity|].
    rewrite div_of_nat by lia. apply ltb_Fin_false. rewrite Qred_correct.
    unfold Qdiv. rewrite Qmult_0_l. apply Qle_refl. }
  rewrite G. eauto.
Qed.

Lemma low_threshold_no_pause_witness :
  let cfg := {| BASELINE_WORKLOAD := of_Z 1400; EXERTION_TOLERANCE_PCT := of_Z 50;
                STABILITY_THRESHOLD_SD := of_Z 300; SILENCE_THRESHOLD := of_Z 8;
                SILENCE_RATIO_LIMIT := Fin (3 # 10) |} in
  let self := init "123" (session [speak_5_200]) cfg in
  _load_and_clean self "speak" 2
    = Some {| shape1 := 3; rows := map row3 [200; 200; 200; 200; 200]%Z |}
  /\ exists out', analyze_speak (self, []) = Ok (self, out').
Proof.
  split; [reflexivity|].
  destruct (low_threshold_no_pause
              (init "123" (session [speak_5_200])
                 {| BASELINE_WORKLOAD := of_Z 1400; EXERTION_TOLERANCE_PCT := of_Z 50;
                    STABILITY_THRESHOLD_SD := of_Z 300; SILENCE_THRESHOLD := of_Z 8;
                    SILENCE_RATIO_LIMIT := Fin (3 # 10) |})
              [] {| shape1 := 3; rows := map row3 [200; 200; 200; 200; 200]%Z |}
              eq_refl eq_refl eq_refl) as (xs & _ & _ & H).
  exact H.
Defined.

(** ** The exertion metric: the load at which the label appears *)





(** ** The mean of a cleaned column *)

Lemma inject_Z_succ (k : nat) :
  (inject_Z (Z.of_nat (S k)) == inject_Z (Z.of_nat k) + 1)%Q.
Proof.
  rewrite Nat2Z.inj_succ. unfold Z.succ. rewrite inject_Z_plus. reflexivity.
Qed.

Lemma sum_above_step (k : nat) (acc x : float) :
  (k = 0%nat -> acc = Fin 0) ->
  (k <> 0%nat -> sum_above k acc) ->
  Float.gtb x (of_Z 10) = true ->
  sum_above (S k) (Float.add acc x).
Proof.
  intros H0 Hk Hx. unfold Float.gtb, of_Z in Hx.
  assert (Hacc : acc = Inf false
                 \/ exists s, acc = Fin s /\ (10 * inject_Z (Z.of_nat k) <= s)%Q).
  { destruct k as [|k].
    - right. exists 0%Q. split; [now apply H0 | unfold Qle; simpl; lia].
    - destruct (Hk (Nat.neq_succ_0 k)) as [->|(s & -> & Hs)]; [now left|].
      right. exists s. split; [reflexivity | now apply Qlt_le_weak]. }
  destruct x as [|sx|q]; try discriminate.
  - destruct sx; [discriminate|]. left.
    destruct Hacc as [->|(s & -> & _)]; reflexivity.
  - apply ltb_Fin in Hx. destruct Hacc as [->|(s & -> & Hs)]; [now left|].
    right. exists (Qred (s + q)). split; [reflexivity|].
    rewrite Qred_correct, inject_Z_succ. lra.
Qed.

Lemma fold_sum_above (xs : list float) (k : nat) (acc : float) :
  (k = 0%nat -> acc = Fin 0) ->
  (k <> 0%nat -> sum_above k acc) ->
  Forall (fun x => Float.gtb x (of_Z 10) = true) xs ->
  (k + List.length xs <> 0)%nat ->
  sum_above (k + List.length xs) (fold_left Float.add xs acc).
Proof.
  revert k acc; induction xs as [|x xs IH]; intros k acc H0 Hk Hall Hn.
  - simpl in *. rewrite Nat.add_0_r in *. now apply Hk.
  - inversion Hall as [|? ? Hx Hxs]; subst. simpl.
    replace (k + S (List.length xs))%nat with (S k + List.length xs)%nat by lia.
    apply IH; try assumption; try lia.
    intros _. now apply sum_above_step.
Qed.

Lemma notna_above (xs : list float) :
  Forall (fun x => Float.gtb x (of_Z 10) = true) xs -> notna xs = xs.
Proof.
  intros H. apply filter_all. eapply Forall_impl; [|exact H].
  intros x Hx. now rewrite (gtb_not_nan _ _ Hx).
Qed.

Lemma nanmean_above (xs : list float) :
  Forall (fun x => Float.gtb x (of_Z 10) = true) xs ->
  xs <> [] ->
  Float.ltb (of_Z 10) (nanmean xs) = true.
Proof.
  intros Hall Hne. unfold nanmean. rewrite (notna_above _ Hall).
  assert (Hn : (0 < List.length xs)%nat) by (destruct xs; [contradiction | simpl; lia]).
  pose proof (fold_sum_above xs 0 (Fin 0) (fun _ => eq_refl)
                (fun H => False_ind _ (H eq_refl)) Hall) as Hs.
  simpl in Hs. specialize (Hs ltac:(lia)).
  change (fold_left Float.add xs (Fin 0)) with (fsum xs) in Hs.
  pose proof (of_nat_positive _ Hn) as Hpos.
  destruct Hs as [->|(s & -> & Hs)].
  - unfold of_nat, of_Z, Float.div.
    change (Z.of_nat (List.length xs) # 1) with (inject_Z (Z.of_nat (List.length xs))).
    rewrite (Qneg_false _ (Qlt_le_weak _ _ Hpos)). reflexivity.
  - unfold of_nat, of_Z, Float.div.
    change (Z.of_nat (List.length xs) # 1) with (inject_Z (Z.of_nat (List.length xs))).
    rewrite (Qzero_false _ Hpos). apply ltb_Fin. rewrite Qred_correct.
    apply Qlt_shift_div_l; [exact Hpos|]. exact Hs.
Qed.

(** X9.  The mean load of a cleaned bike table with at least one row is
    above the noise floor 10, because every retained value is: the exertion
    metric is never taken of idle readings. *)
Theorem cleaned_mean_above_floor (self : RehabRiskAgent) (df : DataFrame) :
  _load_and_clean self "bike_level1" 2 = Some df ->
  rows df <> [] ->
  exists xs avg_load,
    iloc df 2 = Ok (map Num xs)
    /\ series_mean (map Num xs) = Ok avg_load
    /\ Float.ltb (of_Z 10) avg_load = true.
Proof.
  intros Hload Hrows.
  destruct (load_and_clean_column _ _ _ _ Hload) as (xs & Hcol & Hall & Hlen).
  exists xs, (nanmean xs). split; [exact Hcol|]. split.
  - unfold series_mean. now rewrite values_Num.
  - apply nanmean_above; [exact Hall|]. intros ->.
    unfold len in Hlen. destruct (rows df); [contradiction | discriminate].
Qed.

Lemma cleaned_mean_above_floor_witness :
  let self := agent_on [bike_low] in
  _load_and_clean self "bike_level1" 2 = Some {| shape1 := 3; rows := lines bike_low |}
  /\ exists xs avg_load,
       iloc {| shape1 := 3; rows := lines bike_low |} 2 = Ok (map Num xs)
       /\ series_mean (map Num xs) = Ok avg_load
       /\ Float.ltb (of_Z 10) avg_load = true.
Proof.
  split; [reflexivity|].
  apply (cleaned_mean_above_floor (agent_on [bike_low])
           {| shape1 := 3; rows := lines bike_low |} eq_refl).
  discriminate.
Defined.

(** ** Running the analysis again *)

Lemma load_and_clean_same (self self' : RehabRiskAgent) (kw : string) (c : nat) :
  patient_id self' = patient_id self ->
  data_dir self' = data_dir self ->
  _load_and_clean self' kw c = _load_and_clean self kw c.
Proof.
  intros Hp Hd. unfold _load_and_clean, latest_file. now rewrite Hp, Hd.
Qed.

(** What a block appends and prints depends on the identifier, the
    directory and the configuration only, not on the labels and the output
    so far. *)
Lemma analyze_speak_same (self self' : RehabRiskAgent) (out out' : list string) :
  patient_id self' = patient_id self ->
  data_dir self' = data_dir self ->
  config self' = config self ->
  exists s1 s1' l p,
    analyze_speak (self, out) = Ok (s1, (out ++ p)%list)
    /\ analyze_speak (self', out') = Ok (s1', (out' ++ p)%list)
    /\ appended self s1 l /\ appended self' s1' l.
Proof.
  intros Hp Hd Hc.
  pose proof (load_and_clean_same self self' "speak" 2 Hp Hd) as Hl.
  destruct (_load_and_clean self "speak" 2) as [df|] eqn:Hload.
  - destruct (load_and_clean_column _ _ _ _ Hload) as (xs & Hcol & _ & _).
    rewrite (analyze_speak_eq _ out _ _ Hload Hcol),
      (analyze_speak_eq _ out' _ _ Hl Hcol). cbv zeta. rewrite Hc.
    destruct (Float.gtb _ _).
    + eexists _, _, _, _. split; [reflexivity|]. split; [reflexivity|].
      split; apply appended_one.
    + eexists _, _, _, _. split; [reflexivity|]. split; [reflexivity|].
      split; apply appended_nil.
  - unfold analyze_speak. rewrite Hload, Hl.
    eexists _, _, _, _. split; [reflexivity|]. split; [reflexivity|].
    split; apply appended_nil.
Qed.

Lemma analyze_bike_same (self self' : RehabRiskAgent) (out out' : list string) :
  patient_id self' = patient_id self ->
  data_dir self' = data_dir self ->
  config self' = config self ->
  exists s1 s1' l p,
    analyze_bike (self, out) = Ok (s1, (out ++ p)%list)
    /\ analyze_bike (self', out') = Ok (s1', (out' ++ p)%list)
    /\ appended self s1 l /\ appended self' s1' l.
Proof.
  intros Hp Hd Hc.
  pose proof (load_and_clean_same self self' "bike_level1" 2 Hp Hd) as Hl.
  destruct (_load_and_clean self "bike_level1" 2) as [df|] eqn:Hload.
  - destruct (load_and_clean_column _ _ _ _ Hload) as (xs & Hcol & _ & _).
    rewrite (analyze_bike_eq _ out _ _ Hload Hcol),
      (analyze_bike_eq _ out' _ _ Hl Hcol). cbv zeta. rewrite Hc.
    destruct (Float.gtb _ _).
    + eexists _, _, _, _. split; [reflexivity|]. split; [reflexivity|].
      split; apply appended_one.
    + eexists _, _, _, _. split; [reflexivity|]. split; [reflexivity|].
      split; apply appended_nil.
  - unfold analyze_bike. rewrite Hload, Hl.
    eexists _, _, _, _. split; [reflexivity|]. split; [reflexivity|].
    split; apply appended_nil.
Qed.

Lemma analyze_static_same (self self' : RehabRiskAgent) (out out' : list string) :
  patient_id self' = patient_id self ->
  data_dir self' = data_dir self ->
  config self' = config self ->
  exists s1 s1' l p,
    analyze_static (self, out) = Ok (s1, (out ++ p)%list)
    /\ analyze_static (self', out') = Ok (s1', (out' ++ p)%list)
    /\ appended self s1 l /\ appended self' s1' l.
Proof.
  intros Hp Hd Hc.
  pose proof (load_and_clean_same self self' "static_level1" 3 Hp Hd) as Hl.
  destruct (_load_and_clean self "static_level1" 3) as [df|] eqn:Hload.
  - destruct (Nat.ltb_spec 4 (shape1 df)) as [Hshape|Hshape].
    + destruct (static_column3 _ _ Hload) as (xs & Hcol & _ & _).
      rewrite (analyze_static_eq _ out _ _ Hload Hshape Hcol),
        (analyze_static_eq _ out' _ _ Hl Hshape Hcol). cbv zeta. rewrite Hc.
      destruct (Float.gtb _ _).
      * eexists _, _, _, _. split; [reflexivity|]. split; [reflexivity|].
        split; apply appended_one.
      * eexists _, _, _, _. split; [reflexivity|]. split; [reflexivity|].
        split; apply appended_nil.
    + rewrite (analyze_static_short _ out _ Hload Hshape),
        (analyze_static_short _ out' _ Hl Hshape).
      eexists _, _, _, _. split; [reflexivity|]. split; [reflexivity|].
      split; apply appended_nil.
  - unfold analyze_static. rewrite Hload, Hl.
    eexists _, _, _, _. split; [reflexivity|]. split; [reflexivity|].
    split; apply appended_nil.
Qed.

Lemma appended_inputs (a b a' b' : RehabRiskAgent) (l : list string) :
  patient_id a' = patient_id a -> data_dir a' = data_dir a ->
  config a' = config a ->
  appended a b l -> appended a' b' l ->
  patient_id b' = patient_id b /\ data_dir b' = data_dir b
  /\ config b' = config b.
Proof.
  unfold appended. intros Hp Hd Hc (P & D & C & _) (P' & D' & C' & _).
  rewrite P, D, C, P', D', C'. auto.
Qed.

(** X10.  [analyze] never resets the risk list: a second run on the same
    agent appends the labels of the first run once more, so that the verdict
    then shows every label twice. *)
Theorem analyze_twice_duplicates (self s1 s2 : RehabRiskAgent)
    (out o1 o2 : list string) :
  analyze (self, out) = Ok (s1, o1) ->
  analyze (s1, o1) = Ok (s2, o2) ->
  exists l,
    risks s1 = (risks self ++ l)%list
    /\ risks s2 = (risks self ++ l ++ l)%list.
Proof.
  unfold analyze. intros H1 H2.
  assert (Hs1 : patient_id s1 = patient_id self /\ data_dir s1 = data_dir self
                /\ config s1 = config self).
  { unfold analyze in *.
    destruct (analyze_total self out)
      as (t' & o' & r & pm & n & E & (P & D & C & _) & _).
    unfold analyze in E. rewrite E in H1. injection H1 as <- _. auto. }
  destruct Hs1 as (P1 & D1 & C1).
  rewrite P1, D1 in H2.
  set (h := print (print (print out (newline ++ "Analyzing Folder: " ++ dir_name (data_dir self)))
                         ("Identified Patient ID: " ++ patient_id self))
                  (str_repeat "-" 40)) in *.
  set (h' := print (print (print o1 (newline ++ "Analyzing Folder: " ++ dir_name (data_dir self)))
                          ("Identified Patient ID: " ++ patient_id self))
                   (str_repeat "-" 40)) in *.
  destruct (analyze_speak_same self s1 h h' P1 D1 C1)
    as (a1 & b1 & l1 & p1 & Ea & Eb & Aa & Ab).
  rewrite Ea in H1. rewrite Eb in H2. cbn [bind] in H1, H2.
  destruct (appended_inputs _ _ _ _ _ P1 D1 C1 Aa Ab) as (P2 & D2 & C2).
  destruct (analyze_bike_same a1 b1 (h ++ p1)%list (h' ++ p1)%list P2 D2 C2)
    as (a2 & b2 & l2 & p2 & Ea2 & Eb2 & Aa2 & Ab2).
  rewrite Ea2 in H1. rewrite Eb2 in H2. cbn [bind] in H1, H2.
  destruct (appended_inputs _ _ _ _ _ P2 D2 C2 Aa2 Ab2) as (P3 & D3 & C3).
  destruct (analyze_static_same a2 b2 ((h ++ p1) ++ p2)%list ((h' ++ p1) ++ p2)%list
              P3 D3 C3)
    as (a3 & b3 & l3 & p3 & Ea3 & Eb3 & Aa3 & Ab3).
  rewrite Ea3 in H1. rewrite Eb3 in H2.
  injection H1 as <- _. injection H2 as <- _.
  pose proof (appended_trans _ _ _ _ _ Aa (appended_trans _ _ _ _ _ Aa2 Aa3)) as A.
  pose proof (appended_trans _ _ _ _ _ Ab (appended_trans _ _ _ _ _ Ab2 Ab3)) as B.
  exists (l1 ++ l2 ++ l3)%list.
  destruct A as (_ & _ & _ & A). destruct B as (_ & _ & _ & B).
  split; [exact A|]. now rewrite B, A, <- app_assoc.
Qed.

Lemma analyze_twice_duplicates_witness :
  let self := agent_on [speak_50_200] in
  exists s1 o1 s2 o2,
    analyze (self, []) = Ok (s1, o1)
    /\ analyze (s1, o1) = Ok (s2, o2)
    /\ get_result s2 = "FAIL (Respiratory Risk (50.0%); Respiratory Risk (50.0%))"
    /\ exists l, risks s1 = (risks self ++ l)%list
                 /\ risks s2 = (risks self ++ l ++ l)%list.
Proof.
  eexists _, _, _, _. split; [reflexivity|]. split; [reflexivity|].
  split; [reflexivity|].
  eapply (analyze_twice_duplicates (agent_on [speak_50_200]) _ _ [] _ _);
    reflexivity.
Defined.

(** ** The patient identifier *)

Lemma take_digits_spec (s : string) :
  exists b, s = take_digits s ++ b
            /\ all_chars isdigit (take_digits s) = true
            /\ starts_with_char isdigit b = false.
Proof.
  induction s as [|c s IH]; simpl.
  - now exists "".
  - destruct (isdigit c) eqn:Hc.
    + destruct IH as (b & E & Hd & Hb). exists b. simpl.
      rewrite Hc, Hd, <- E. auto.
    + exists (String c s). simpl. now rewrite Hc.
Qed.

Lemma digit_plain (c : ascii) :
  isdigit c = true ->
  negb (Ascii.eqb c "*") && negb (Ascii.eqb c "?") && negb (Ascii.eqb c "[") = true.
Proof.
  destruct c as [[] [] [] [] [] [] [] []]; try discriminate; reflexivity.
Qed.

Lemma digits_plain (s : string) : all_chars isdigit s = true -> plain s = true.
Proof.
  induction s as [|c s IH]; simpl; [reflexivity|].
  intros H. apply andb_prop in H. destruct H as [Hc Hs].
  now rewrite (digit_plain c Hc), IH.
Qed.

Lemma search_digits_spec (s : string) :
  match search_digits s with
  | None => all_chars (fun c => negb (isdigit c)) s = true
  | Some id =>
      exists a b, s = a ++ id ++ b
                  /\ all_chars (fun c => negb (isdigit c)) a = true
                  /\ id <> ""
                  /\ all_chars isdigit id = true
                  /\ starts_with_char isdigit b = false
  end.
Proof.
  induction s as [|c s IH]; [reflexivity|].
  cbn [search_digits]. destruct (isdigit c) eqn:Hc.
  - destruct (take_digits_spec (String c s)) as (b & E & Hd & Hb).
    exists "", b. split; [exact E|]. split; [reflexivity|].
    split; [|auto]. simpl. rewrite Hc. discriminate.
  - destruct (search_digits s) as [id|].
    + destruct IH as (a & b & -> & Ha & Hid & Hd & Hb).
      exists (String c a), b. simpl. rewrite Hc, Ha. auto.
    + simpl. now rewrite Hc, IH.
Qed.

(** X11.  The identifier taken from a folder name is the first run of
    digits of the name, taken as long as it goes: no digit stands before it,
    none follows it directly, and it has no wildcard character, so that the
    patient-specific pattern reads it literally.  A name without a digit is
    the identifier itself. *)
Theorem extract_patient_id_spec (folder_name : string) :
  let id := extract_patient_id folder_name in
  (all_chars (fun c => negb (isdigit c)) folder_name = true /\ id = folder_name)
  \/ (exists a b,
        folder_name = a ++ id ++ b
        /\ all_chars (fun c => negb (isdigit c)) a = true
        /\ id <> ""
        /\ all_chars isdigit id = true
        /\ starts_with_char isdigit b = false
        /\ plain id = true).
Proof.
  unfold extract_patient_id. pose proof (search_digits_spec folder_name) as H.
  destruct (search_digits folder_name) as [id|]; cbv zeta.
  - right. destruct H as (a & b & E & Ha & Hid & Hd & Hb).
    exists a, b. repeat split; try assumption. now apply digits_plain.
  - left. now split.
Qed.

Example extract_patient_id_data :
  extract_patient_id "data84468686868685data" = "84468686868685".
Proof. reflexivity. Qed.
Example extract_patient_id_test :
  extract_patient_id "patient_999_test" = "999".
Proof. reflexivity. Qed.
Example extract_patient_id_first_run :
  extract_patient_id "ward7_patient_999" = "7".
Proof. reflexivity. Qed.
Example extract_patient_id_none :
  extract_patient_id "control_group" = "control_group".
Proof. reflexivity. Qed.

(** ** The folder picker *)

Lemma lstrip_spec (s : string) :
  exists a, s = a ++ lstrip s
            /\ all_chars isspace a = true
            /\ starts_with_char isspace (lstrip s) = false.
Proof.
  induction s as [|c s IH]; simpl.
  - now exists "".
  - destruct (isspace c) eqn:Hc.
    + destruct IH as (a & E & Ha & Hs). exists (String c a). simpl.
      rewrite Hc, Ha, <- E. auto.
    + exists "". simpl. now rewrite Hc.
Qed.

Lemma rstrip_spec (s : string) :
  exists b, s = rstrip s ++ b
            /\ all_chars isspace b = true
            /\ last_char isspace (rstrip s) = false.
Proof.
  induction s as [|c s IH]; simpl.
  - now exists "".
  - destruct IH as (b & E & Hb & Hl).
    destruct (rstrip s) as [|d r] eqn:Er.
    + simpl in E. subst b. destruct (isspace c) eqn:Hc.
      * exists (String c s). simpl. now rewrite Hc, Hb.
      * exists s. simpl. now rewrite Hc.
    + exists b. simpl in *. rewrite <- E. auto.
Qed.

Lemma rstrip_first (f : ascii -> bool) (s : string) :
  starts_with_char f s = false -> starts_with_char f (rstrip s) = false.
Proof.
  destruct s as [|c s]; simpl; [reflexivity|].
  intros Hc. destruct (rstrip s); [destruct (isspace c)|]; simpl; auto.
Qed.

Lemma all_chars_app (f : ascii -> bool) (a b : string) :
  all_chars f (a ++ b) = all_chars f a && all_chars f b.
Proof.
  induction a as [|c a IH]; simpl; [reflexivity|].
  now rewrite IH, andb_assoc.
Qed.

Lemma strip_spec (s : string) :
  exists a b, s = a ++ strip s ++ b
              /\ all_chars isspace a = true
              /\ all_chars isspace b = true
              /\ starts_with_char isspace (strip s) = false
              /\ last_char isspace (strip s) = false.
Proof.
  unfold strip. destruct (lstrip_spec s) as (a & Ea & Ha & Hs).
  destruct (rstrip_spec (lstrip s)) as (b & Eb & Hb & Hl).
  exists a, b. rewrite <- Eb, <- Ea. repeat split; try assumption.
  now apply rstrip_first.
Qed.

(** X12.  [pick_folder_safely] returns a path only when the dialog process
    wrote something other than white space: the path is that output without
    the white space around it, so it is never empty and neither starts nor
    ends with white space.  Output of white space only, as when the dialog
    is cancelled, and a failed launch both give no path. *)
Theorem pick_folder_safely_result (launch : string + string) (out : list string) :
  match fst (pick_folder_safely launch out) with
  | Some p =>
      exists stdout a b,
        launch = inl stdout
        /\ stdout = a ++ p ++ b
        /\ all_chars isspace a = true
        /\ all_chars isspace b = true
        /\ p <> ""
        /\ starts_with_char isspace p = false
        /\ last_char isspace p = false
  | None =>
      (exists e, launch = inr e)
      \/ (exists stdout, launch = inl stdout /\ all_chars isspace stdout = true)
  end.
Proof.
  destruct launch as [stdout|e]; simpl.
  - destruct (strip_spec stdout) as (a & b & E & Ha & Hb & Hs & Hl).
    destruct (strip stdout) as [|c p] eqn:Es; simpl.
    + right. exists stdout. split; [reflexivity|].
      rewrite E. simpl. now rewrite all_chars_app, Ha, Hb.
    + exists stdout, a, b. repeat split; try assumption. discriminate.
  - left. now exists e.
Qed.

Example pick_folder_path :
  pick_folder_safely (inl ("/data/patient_999" ++ newline)) []
  = (Some "/data/patient_999", ["Opening selection window, please wait..."]).
Proof. reflexivity. Qed.
Example pick_folder_cancelled :
  pick_folder_safely (inl newline) []
  = (None, ["Opening selection window, please wait..."]).
Proof. reflexivity. Qed.

(** ** A folder without data *)

Lemma latest_file_none (self : RehabRiskAgent) (kw : string) :
  glob (data_dir self) (keyword_pattern kw) = [] -> latest_file self kw = None.
Proof.
  intros Hk. unfold latest_file.
  destruct (glob (data_dir self) (specific_pattern (patient_id self) kw))
    as [|f fs] eqn:Es; [now rewrite Hk|].
  assert (Hin : In f (glob (data_dir self) (keyword_pattern kw))).
  { assert (Hf : In f (glob (data_dir self)
                         (specific_pattern (patient_id self) kw)))
      by (rewrite Es; now left).
    unfold glob in *. rewrite filter_In in *.
    change (ishidden (specific_pattern (patient_id self) kw)) with false in Hf.
    change (ishidden (keyword_pattern kw)) with false.
    rewrite orb_false_l, andb_true_iff in *.
    destruct Hf as (Hin & Hh & Hm). split; [exact Hin|]. split; [exact Hh|].
    now apply specific_implies_keyword in Hm. }
  rewrite Hk in Hin. contradiction.
Qed.

Lemma load_and_clean_no_file (self : RehabRiskAgent) (kw : string) (c : nat) :
  glob (data_dir self) (keyword_pattern kw) = [] ->
  _load_and_clean self kw c = None.
Proof.
  intros Hk. unfold _load_and_clean. now rewrite (latest_file_none _ _ Hk).
Qed.

(** X13.  In a folder where no entry matches any of the three keyword
    patterns, the analysis prints its three header lines and the three
    warnings, appends no label, and the verdict of a fresh agent is
    "PASS (Healthy Data)": missing data is reported as healthy. *)
Theorem no_matching_files_pass (pid : string) (dir : Path) (cfg : RiskConfig)
    (out : list string) :
  Forall (fun kw => glob dir (keyword_pattern kw) = []) keywords ->
  analyze (init pid dir cfg, out) =
    Ok (init pid dir cfg,
        (out ++ [(newline ++ "Analyzing Folder: " ++ dir_name dir)%string;
                 ("Identified Patient ID: " ++ pid)%string;
                 str_repeat "-" 40;
                 "   Warning: Speak file not found or invalid format";
                 "   Warning: Bike file not found or invalid format";
                 "   Warning: Static file not found or invalid format"])%list)
  /\ get_result (init pid dir cfg) = "PASS (Healthy Data)".
Proof.
  intros H. split; [|reflexivity].
  inversion H as [|? ? H1 H']; subst. inversion H' as [|? ? H2 H'']; subst.
  inversion H'' as [|? ? H3 _]; subst.
  unfold analyze, analyze_speak, analyze_bike, analyze_static.
  rewrite (load_and_clean_no_file (init pid dir cfg) "speak" 2 H1). cbn [bind].
  rewrite (load_and_clean_no_file (init pid dir cfg) "bike_level1" 2 H2). cbn [bind].
  rewrite (load_and_clean_no_file (init pid dir cfg) "static_level1" 3 H3).
  unfold print. simpl. now rewrite <- !app_assoc.
Qed.

Lemma no_matching_files_pass_witness :
  let dir := session [{| name := "notes.txt"; st_mtime := 1; lines := [] |};
                      {| name := "123_speak.xlsx"; st_mtime := 2; lines := [] |}] in
  Forall (fun kw => glob dir (keyword_pattern kw) = []) keywords
  /\ exists out, analyze (init "123" dir default_config, []) =
                   Ok (init "123" dir default_config, out)
  /\ get_result (init "123" dir default_config) = "PASS (Healthy Data)".
Proof.
  assert (H : Forall
    (fun kw => glob (session [{| name := "notes.txt"; st_mtime := 1; lines := [] |};
                              {| name := "123_speak.xlsx"; st_mtime := 2; lines := [] |}])
                    (keyword_pattern kw) = []) keywords).
  { repeat constructor. }
  split; [exact H|].
  destruct (no_matching_files_pass "123" _ default_config [] H) as [E P].
  eexists. split; [exact E | exact P].
Defined.

(** ** The main block *)




Lemma strip_all_space (s : string) : all_chars isspace s = true -> strip s = "".
Proof.
  unfold strip. induction s as [|c s IH]; simpl; [reflexivity|].
  intros H. apply andb_prop in H. destruct H as [Hc Hs]. rewrite Hc. auto.
Qed.



(** X15.  Without a selection, after a failed launch or when the dialog
    wrote white space only, the main block prints the error line and
    analyses nothing: the directory is never read. *)
Theorem main_no_selection (launch : string + string) (fs : string -> list file) :
  (forall stdout, launch = inl stdout -> all_chars isspace stdout = true) ->
  main launch fs =
    Ok (match launch with
        | inl _ =>
            ["--- Starting Generic Rehab Risk Agent ---";
             "Opening selection window, please wait...";
             "Error: No folder selected."]
        | inr e =>
            ["--- Starting Generic Rehab Risk Agent ---";
             "Opening selection window, please wait...";
             ("Error: Window launch failed: " ++ e)%string;
             "Error: No folder selected."]
        end).
Proof.
  intros H. unfold main, pick_folder_safely. destruct launch as [stdout|e].
  - rewrite (strip_all_space _ (H stdout eq_refl)). reflexivity.
  - reflexivity.
Qed.

Lemma main_no_selection_witness :
  main (inl newline) (fun _ => [speak_50_200]) =
    Ok ["--- Starting Generic Rehab Risk Agent ---";
        "Opening selection window, please wait...";
        "Error: No folder selected."].
Proof.
  apply (main_no_selection (inl newline) (fun _ => [speak_50_200])).
  intros stdout [= <-]. reflexivity.
Defined.

Example path_name_trailing_slash : path_name "/data/patient_999/" = "patient_999".
Proof. reflexivity. Qed.
Example path_name_dot : path_name "data/p7/." = "p7".
Proof. reflexivity. Qed.
Example path_name_root : path_name "/" = "".
Proof. reflexivity. Qed.
Example path_name_drive : path_name "C:/Users/lab/p42" = "p42".
Proof. reflexivity. Qed.

(** ** Which rows the cleaner retains *)

(** X16.  The cleaner loses no row above the noise floor: a row of the
    table, with its designated cell coerced, is among the retained rows
    exactly when the designated cell reads as a number strictly greater than
    10.  A cell that is text but reads as such a number is retained; the
    value 10 itself, a missing value and text that is no number are not. *)
Theorem clean_retains_exactly (df df' : DataFrame) (c : nat) (r : list cell) :
  clean df c = Ok (Some df') ->
  In r (rows df) ->
  In (coerce_row c r) (rows df') <->
  Float.gtb (to_numeric_cell (nth c r (Num NaN))) (of_Z 10) = true.
Proof.
  intros H Hin. destruct (Nat.ltb_spec c (shape1 df)) as [Hc|Hc].
  - rewrite clean_eq in H by assumption. injection H as <-. simpl.
    rewrite filter_In, keep_coerce_row. unfold keep_row. split.
    + now intros [_ Hk].
    + intros Hk. split; [|exact Hk]. now apply in_map.
  - rewrite clean_short in H by assumption. discriminate.
Qed.

Lemma clean_retains_exactly_witness :
  let df := {| shape1 := 3;
               rows := [row3 10; [zero; zero; Str "10.5"];
                        [zero; zero; Str "n/a"]; [zero; zero; Num NaN]] |} in
  let df' := {| shape1 := 3; rows := [[zero; zero; Num (Fin (21 # 2))]] |} in
  clean df 2 = Ok (Some df')
  /\ In (coerce_row 2 [zero; zero; Str "10.5"]) (rows df')
  /\ Float.gtb (to_numeric_cell (Num (of_Z 10))) (of_Z 10) = false.
Proof.
  split; [reflexivity|]. split; [|reflexivity].
  apply (clean_retains_exactly
           {| shape1 := 3;
              rows := [row3 10; [zero; zero; Str "10.5"];
                       [zero; zero; Str "n/a"]; [zero; zero; Num NaN]] |}
           {| shape1 := 3; rows := [[zero; zero; Num (Fin (21 # 2))]] |}
           2 [zero; zero; Str "10.5"] eq_refl).
  - right; left; reflexivity.
  - reflexivity.
Defined.

(** ** What a run prints *)




